(** * Loan lifecycle of the library-management application

    A shallow embedding of the Django models ([library/models.py]), the
    permission decorators ([library/utils.py]), the issue form
    ([library/forms.py]) and the issue / return / renew / fine-payment views
    ([library/views.py]), followed by the properties of the loan lifecycle.

    Conventions of the embedding.
    - An [IntegerField] is a [Z]; Python integers do not wrap.
    - A [DateField] holds a [datetime.date]; a date is modelled by its
      proleptic Gregorian ordinal ([date.toordinal()]), a [Z].  Adding a
      [timedelta] raises [OverflowError] outside [date.min .. date.max], and
      this is written out in [date_add].
    - A nullable field is an [option].
    - The tables [issues] and [fines] only ever grow in the views below; a
      table is the list of its rows and the primary key of a row is its
      position in the list.  Books and users are looked up by the key that a
      request supplies, and are finite maps.
    - The two clock readings used by the source, [date.today()] and
      [timezone.now().date()], are inputs of every operation. *)

From Stdlib Require Import ZArith Lia.
From stdpp Require Import gmap strings list.

Open Scope Z_scope.

(** ** Dates *)

Module Datetime.

(** [date.max.toordinal()], the ordinal of 9999-12-31. *)
Definition MAXORDINAL : Z := 3652059.

(** [timedelta.max.days]. *)
Definition MAX_DELTA_DAYS : Z := 999999999.

(** [timedelta(days=n)]: [None] stands for [OverflowError]. *)
Definition timedelta (days : Z) : option Z :=
  if Z.abs days <=? MAX_DELTA_DAYS then Some days else None.

(** [d + delta] on dates: [None] stands for [OverflowError]
    ("date value out of range"). *)
Definition date_add (d delta : Z) : option Z :=
  let o := d + delta in
  if (0 <? o) && (o <=? MAXORDINAL) then Some o else None.

(** [(a - b).days] on dates. *)
Definition days_between (a b : Z) : Z := a - b.

End Datetime.

(** The clock as the views read it. *)
Record Clock := {
  date_today : Z;          (* date.today() *)
  timezone_now_date : Z    (* timezone.now().date() *)
}.

(** ** Models *)

Module UserProfile.
Record t := { role : string }.
End UserProfile.

Module User.
(** [profile] is the reverse side of [UserProfile.user]; it is absent for a
    user without a profile row. *)
Record t := { username : string; profile : option UserProfile.t }.
End User.

Module Book.
Record t := {
  title : string;
  total_quantity : Z;
  available_quantity : Z
}.

Definition set_available_quantity (q : Z) (b : t) : t :=
  {| title := title b; total_quantity := total_quantity b;
     available_quantity := q |}.

Definition is_available (b : t) : bool := 0 <? available_quantity b.
End Book.

Module Issue.
Record t := {
  book : Z;
  user : Z;
  issue_date : Z;
  due_date : Z;
  return_date : option Z;
  renewal_count : Z;
  max_renewals : Z;
  issued_by : option Z;
  returned_to : option Z
}.

Definition set_return_date (d : option Z) (i : t) : t :=
  {| book := book i; user := user i; issue_date := issue_date i;
     due_date := due_date i; return_date := d;
     renewal_count := renewal_count i; max_renewals := max_renewals i;
     issued_by := issued_by i; returned_to := returned_to i |}.

Definition set_returned_to (u : option Z) (i : t) : t :=
  {| book := book i; user := user i; issue_date := issue_date i;
     due_date := due_date i; return_date := return_date i;
     renewal_count := renewal_count i; max_renewals := max_renewals i;
     issued_by := issued_by i; returned_to := u |}.

Definition set_due_date (d : Z) (i : t) : t :=
  {| book := book i; user := user i; issue_date := issue_date i;
     due_date := d; return_date := return_date i;
     renewal_count := renewal_count i; max_renewals := max_renewals i;
     issued_by := issued_by i; returned_to := returned_to i |}.

Definition set_renewal_count (n : Z) (i : t) : t :=
  {| book := book i; user := user i; issue_date := issue_date i;
     due_date := due_date i; return_date := return_date i;
     renewal_count := n; max_renewals := max_renewals i;
     issued_by := issued_by i; returned_to := returned_to i |}.

(** [Issue.objects.create(book=, user=, issue_date=, due_date=, issued_by=)]:
    the other fields take their declared defaults. *)
Definition create (b u : Z) (issued due : Z) (by_ : option Z) : t :=
  {| book := b; user := u; issue_date := issued; due_date := due;
     return_date := None; renewal_count := 0; max_renewals := 2;
     issued_by := by_; returned_to := None |}.

(** The [is_overdue] property. A [date] is always truthy, so
    [if self.return_date] tests that the field is set. *)
Definition is_overdue (clk : Clock) (i : t) : bool :=
  match return_date i with
  | Some _ => false
  | None => due_date i <? timezone_now_date clk
  end.

(** The [days_overdue] property. *)
Definition days_overdue (clk : Clock) (i : t) : Z :=
  if negb (is_overdue clk i) then 0
  else Datetime.days_between (timezone_now_date clk) (due_date i).

(** [calculate_fine]: "Calculate late fee at Rs 10 per day". *)
Definition calculate_fine (clk : Clock) (i : t) : Z :=
  if is_overdue clk i then days_overdue clk i * 10 else 0.
End Issue.

Module Fine.
Inductive status_t := PENDING | PAID | WAIVED.

Record t := {
  issue : nat;
  amount : Z;
  status : status_t;
  payment_date : option Z;
  payment_method : string;
  payment_reference : string;
  waived_by : option Z;
  waive_reason : string
}.

(** [Fine.objects.create(issue=, amount=, status=)]. *)
Definition create (i : nat) (a : Z) (s : status_t) : t :=
  {| issue := i; amount := a; status := s; payment_date := None;
     payment_method := ""; payment_reference := "";
     waived_by := None; waive_reason := "" |}.

Definition set_status (s : status_t) (f : t) : t :=
  {| issue := issue f; amount := amount f; status := s;
     payment_date := payment_date f; payment_method := payment_method f;
     payment_reference := payment_reference f;
     waived_by := waived_by f; waive_reason := waive_reason f |}.

Definition set_payment_date (d : option Z) (f : t) : t :=
  {| issue := issue f; amount := amount f; status := status f;
     payment_date := d; payment_method := payment_method f;
     payment_reference := payment_reference f;
     waived_by := waived_by f; waive_reason := waive_reason f |}.

Definition set_payment_method (m : string) (f : t) : t :=
  {| issue := issue f; amount := amount f; status := status f;
     payment_date := payment_date f; payment_method := m;
     payment_reference := payment_reference f;
     waived_by := waived_by f; waive_reason := waive_reason f |}.
End Fine.

Module Notification.
(** The [message] text (an f-string over the title and the due date) and
    the two optional relations are left out. *)
Record t := { user : Z; notification_type : string; title : string }.
End Notification.

Module AuditLog.
(** The free-text [description] and the request metadata ([ip_address],
    [user_agent]) are left out. *)
Record t := {
  user : option Z;
  action : string;
  model_name : string;
  object_id : option nat
}.
End AuditLog.

(** ** The range of an integer column *)

(** [IntegerField]: "Values from -2147483648 to 2147483647 are safe in all
    databases supported by Django." A row read from the database holds its
    integers inside the range of the column, and [save()] raises for a
    value outside it. The views compute on Python integers, which have no
    bound, and are modelled so; a property that relies on a count being
    written after [+= 1] states that the count was below the top of this
    range. *)
Definition IntegerField_min : Z := -2147483648.

Definition IntegerField_max : Z := 2147483647.

(** ** The database and the requests *)

Record DB := {
  users : gmap Z User.t;
  books : gmap Z Book.t;
  issues : list Issue.t;
  fines : list Fine.t;
  notifications : list Notification.t;
  audit_logs : list AuditLog.t
}.

Definition set_books (bs : gmap Z Book.t) (db : DB) : DB :=
  {| users := users db; books := bs; issues := issues db; fines := fines db;
     notifications := notifications db; audit_logs := audit_logs db |}.

Definition set_issues (xs : list Issue.t) (db : DB) : DB :=
  {| users := users db; books := books db; issues := xs; fines := fines db;
     notifications := notifications db; audit_logs := audit_logs db |}.

Definition set_fines (xs : list Fine.t) (db : DB) : DB :=
  {| users := users db; books := books db; issues := issues db; fines := xs;
     notifications := notifications db; audit_logs := audit_logs db |}.

Definition set_notifications (xs : list Notification.t) (db : DB) : DB :=
  {| users := users db; books := books db; issues := issues db;
     fines := fines db; notifications := xs; audit_logs := audit_logs db |}.

Definition set_audit_logs (xs : list AuditLog.t) (db : DB) : DB :=
  {| users := users db; books := books db; issues := issues db;
     fines := fines db; notifications := notifications db; audit_logs := xs |}.

(** A form field that the view reads as an integer: absent from the form,
    present but not a number, or a number. *)
Inductive Field := Missing | Malformed | IntVal (z : Z).

(** The parts of an [HttpRequest] that the views read. [session_user] is the
    primary key stored in the session, [None] for an anonymous visitor. *)
Record Request := {
  session_user : option Z;
  method : string;
  POST_book_id : Field;
  POST_user_id : Field;
  POST_days : Field;
  POST_payment_method : option string
}.

(** [request.user]: the authentication middleware loads the session's user
    and falls back to the anonymous user when there is none. *)
Definition request_user (db : DB) (req : Request) : option (Z * User.t) :=
  match session_user req with
  | None => None
  | Some uid =>
      match users db !! uid with
      | Some u => Some (uid, u)
      | None => None
      end
  end.

Inductive Exn :=
| DoesNotExist
| RelatedObjectDoesNotExist
| ValueError
| OverflowError
| IntegrityError
| Http404.

Inductive Level := ERROR | WARNING | SUCCESS.

(** The flash messages of the views, one constructor per message text. *)
Inductive Text :=
| NoPagePermission  (* 'You do not have permission to access this page.' *)
| BookNotAvailable        (* 'Book is not available!' *)
| BookIssued (username : string)   (* 'Book issued successfully to ...!' *)
| BookAlreadyReturned     (* 'Book already returned!' *)
| ReturnedWithFine (fine_amount : Z) (* 'Book returned with fine: Rs ...' *)
| ReturnedSuccessfully    (* 'Book returned successfully!' *)
| NoRenewPermission       (* 'You do not have permission to renew this book.' *)
| MaximumRenewals (max_renewals : Z) (* 'Maximum renewals (...) reached!' *)
| BookRenewed (due_date : Z)       (* 'Book renewed! New due date: ...' *)
| FinePaid (amount : Z).           (* 'Fine of Rs ... paid successfully!' *)

Inductive HttpResponse :=
| Redirect (to : string)
| Render (template : string).

Inductive Outcome :=
| Returns (r : HttpResponse)
| Raises (e : Exn).

(** What a view leaves behind: its response (or the exception that escaped),
    the messages it flashed, and the database. There is no transaction
    around a request, so the writes made before an exception stay. *)
Record Result := {
  outcome : Outcome;
  flashed : list (Level * Text);
  store : DB
}.

Definition View := Request -> DB -> Result.

(** ** [library/utils.py] *)

Module Utils.

Definition create_notification (u : Z) (ty ttl : string) (db : DB) : DB :=
  set_notifications
    (notifications db ++ [ {| Notification.user := u;
                              Notification.notification_type := ty;
                              Notification.title := ttl |} ]) db.

Definition log_audit (u : option Z) (act mdl : string) (oid : option nat)
    (db : DB) : DB :=
  set_audit_logs
    (audit_logs db ++ [ {| AuditLog.user := u; AuditLog.action := act;
                           AuditLog.model_name := mdl;
                           AuditLog.object_id := oid |} ]) db.

(** [@login_required]: an anonymous visitor is sent to [LOGIN_URL]. The
    wrapped view receives the loaded [request.user]. *)
Definition login_required (view : Z * User.t -> View) : View :=
  fun req db =>
    match request_user db req with
    | None => {| outcome := Returns (Redirect "login"); flashed := [];
                 store := db |}
    | Some me => view me req db
    end.

(** [role_required(allowed_roles)]. *)
Definition role_required (allowed_roles : list string)
    (view_func : Z * User.t -> View) : View :=
  login_required (fun me req db =>
    let denied := {| outcome := Returns (Redirect "dashboard");
                     flashed := [(ERROR, NoPagePermission)]; store := db |} in
    match User.profile (snd me) with
    | Some p =>
        if bool_decide (UserProfile.role p ∈ allowed_roles)
        then view_func me req db
        else denied
    | None => denied
    end).

Definition librarian_required := role_required ["ADMIN"; "LIBRARIAN"].

(** [get_user_role]: the role, or [None] without a profile. *)
Definition get_user_role (u : User.t) : option string :=
  match User.profile u with
  | Some p => Some (UserProfile.role p)
  | None => None
  end.

(** [is_librarian]: "Check if user is admin or librarian". *)
Definition is_librarian (u : User.t) : bool :=
  match get_user_role u with
  | Some role => bool_decide (role ∈ ["ADMIN"; "LIBRARIAN"])
  | None => false
  end.

(** [admin_required] and [student_required]. *)
Definition admin_required := role_required ["ADMIN"].

Definition student_required := role_required ["STUDENT"].

(** [is_admin] and [is_student]: [get_user_role(user) == ...]. *)
Definition is_admin (u : User.t) : bool :=
  bool_decide (get_user_role u = Some "ADMIN").

Definition is_student (u : User.t) : bool :=
  bool_decide (get_user_role u = Some "STUDENT").

End Utils.

(** ** [library/forms.py] *)

Module Forms.

Inductive ValidationError :=
| NotAvailable          (* "This book is not available" *)
| AlreadyIssued (username : string). (* "... already has this book issued" *)

(** [Issue.objects.filter(user=, book=, return_date__isnull=True).exists()] *)
Definition has_active_issue (db : DB) (u b : Z) : bool :=
  existsb (fun i => (Issue.user i =? u) && (Issue.book i =? b) &&
                    bool_decide (Issue.return_date i = None))
          (issues db).

(** [IssueBookForm.clean] on the cleaned [book] and [user] (each present when
    its own field validated): [inl] is the raised [ValidationError]. *)
Definition IssueBookForm_clean (db : DB)
    (book : option (Z * Book.t)) (user : option (Z * User.t))
    : ValidationError + unit :=
  match book with
  | Some (book_id, b) =>
      if Book.available_quantity b <=? 0 then inl NotAvailable
      else
        match user with
        | Some (user_id, u) =>
            (* Check if user already has this book *)
            if has_active_issue db user_id book_id
            then inl (AlreadyIssued (User.username u))
            else inr tt
        | None => inr tt
        end
  | None => inr tt
  end.

(** [BookForm.clean_total_quantity] on the cleaned integer, [None] when the
    field is empty: [if quantity and quantity < 1], where [0] is falsy.
    [inl tt] is the raised "Quantity must be at least 1". *)
Definition clean_total_quantity (quantity : option Z) : unit + option Z :=
  match quantity with
  | Some q =>
      if negb (q =? 0) && (q <? 1) then inl tt else inr quantity
  | None => inr quantity
  end.

End Forms.

(** ** [library/views.py] *)

Module Views.

Definition raises (e : Exn) (msgs : list (Level * Text)) (db : DB) : Result :=
  {| outcome := Raises e; flashed := msgs; store := db |}.

Definition responds (r : HttpResponse) (msgs : list (Level * Text)) (db : DB)
    : Result :=
  {| outcome := Returns r; flashed := msgs; store := db |}.

(** [int(request.POST.get(name, default))] *)
Definition int_or (default : Z) (f : Field) : Exn + Z :=
  match f with
  | Missing => inr default
  | Malformed => inl ValueError
  | IntVal z => inr z
  end.

(** [Model.objects.get(id=request.POST.get(name))] on a table keyed by [Z]:
    an absent field looks up [id=None] and finds nothing. *)
Definition objects_get {A} (table : gmap Z A) (f : Field) : Exn + (Z * A) :=
  match f with
  | Missing => inl DoesNotExist
  | Malformed => inl ValueError
  | IntVal z =>
      match table !! z with
      | Some row => inr (z, row)
      | None => inl DoesNotExist
      end
  end.

(** The body of [issue_create]. [date.today()] is read twice in one
    expression; both readings are [date_today clk]. *)
Definition issue_create_body (clk : Clock) (me : Z * User.t) : View :=
  fun request db =>
    let form := Render "issues/issue_create.html" in
    if bool_decide (method request = "POST") then
      match int_or 14 (POST_days request) with
      | inl e => raises e [] db
      | inr days =>
      match objects_get (books db) (POST_book_id request) with
      | inl e => raises e [] db
      | inr (book_id, book) =>
      match objects_get (users db) (POST_user_id request) with
      | inl e => raises e [] db
      | inr (user_id, user) =>
          if Book.available_quantity book <=? 0 then
            responds form [(ERROR, BookNotAvailable)] db
          else
            match Datetime.timedelta days with
            | None => raises OverflowError [] db
            | Some delta =>
            match Datetime.date_add (date_today clk) delta with
            | None => raises OverflowError [] db
            | Some due =>
                let issue :=
                  Issue.create book_id user_id (date_today clk) due
                               (Some (fst me)) in
                let issue_id := length (issues db) in
                let db := set_issues (issues db ++ [issue]) db in
                (* Update book quantity *)
                let book :=
                  Book.set_available_quantity
                    (Book.available_quantity book - 1) book in
                let db := set_books (<[book_id := book]> (books db)) db in
                (* Create notification *)
                let db :=
                  Utils.create_notification user_id "GENERAL" "Book Issued"
                                            db in
                let db :=
                  Utils.log_audit (Some (fst me)) "ISSUE" "Issue"
                                  (Some issue_id) db in
                responds (Redirect "issue_list")
                         [(SUCCESS, BookIssued (User.username user))] db
            end
            end
      end
      end
      end
    else responds form [] db.

Definition issue_create (clk : Clock) : View :=
  Utils.librarian_required (issue_create_body clk).

(** The body of [issue_return]. [issue.book] loads the related book on its
    first use; the assignment to [return_date] comes before the overdue test,
    as in the source.
    The count is raised as a Python integer; a [save()] that fails because
    the new count does not fit the database column ([IntegerField_max]) is
    not a path of this function. *)
Definition issue_return_body (clk : Clock) (issue_id : nat)
    (me : Z * User.t) : View :=
  fun request db =>
    match issues db !! issue_id with
    | None => raises Http404 [] db
    | Some issue =>
        match Issue.return_date issue with
        | Some _ =>
            responds (Redirect "issue_list")
                     [(WARNING, BookAlreadyReturned)] db
        | None =>
            let issue := Issue.set_return_date (Some (date_today clk)) issue in
            let issue := Issue.set_returned_to (Some (fst me)) issue in
            let db := set_issues (<[issue_id := issue]> (issues db)) db in
            (* Update book quantity *)
            match books db !! Issue.book issue with
            | None => raises DoesNotExist [] db
            | Some book =>
                let book :=
                  Book.set_available_quantity
                    (Book.available_quantity book + 1) book in
                let db :=
                  set_books (<[Issue.book issue := book]> (books db)) db in
                let audit :=
                  Utils.log_audit (Some (fst me)) "RETURN" "Issue"
                                  (Some issue_id) in
                (* Calculate fine if overdue *)
                if Issue.is_overdue clk issue then
                  let fine_amount := Issue.calculate_fine clk issue in
                  if existsb (fun f => Nat.eqb (Fine.issue f) issue_id)
                             (fines db)
                  then raises IntegrityError [] db
                  else
                    let db :=
                      set_fines
                        (fines db ++
                           [Fine.create issue_id fine_amount Fine.PENDING])
                        db in
                    responds (Redirect "issue_list")
                             [(WARNING, ReturnedWithFine fine_amount)]
                             (audit db)
                else
                  responds (Redirect "issue_list")
                           [(SUCCESS, ReturnedSuccessfully)] (audit db)
            end
        end
    end.

Definition issue_return (clk : Clock) (issue_id : nat) : View :=
  Utils.librarian_required (issue_return_body clk issue_id).

(** The permission test of [issue_renew],

      [issue.user != request.user and not hasattr(request.user.profile, 'role')
       or request.user.profile.role not in ['ADMIN', 'LIBRARIAN']]

    which Python reads as [(A and B) or C]. [request.user.profile] raises
    for a user without a profile row; [hasattr(profile, 'role')] holds for
    every profile, [role] being a field of the model. [inr true] means that
    the request is refused. *)
Definition the_profile (u : User.t) : Exn + UserProfile.t :=
  match User.profile u with
  | Some p => inr p
  | None => inl RelatedObjectDoesNotExist
  end.

Definition hasattr_role (p : UserProfile.t) : bool := true.

Definition renew_refused (issue : Issue.t) (me : Z * User.t) : Exn + bool :=
  let C :=
    match the_profile (snd me) with
    | inl e => inl e
    | inr p =>
        inr (negb (bool_decide (UserProfile.role p ∈ ["ADMIN"; "LIBRARIAN"])))
    end in
  if negb (Issue.user issue =? fst me) then
    match the_profile (snd me) with
    | inl e => inl e
    | inr p => if negb (hasattr_role p) then inr true else C
    end
  else C.

(** The body of [issue_renew]. The audit entry formats [issue.book.title],
    which loads the related book. *)
Definition issue_renew_body (issue_id : nat) (me : Z * User.t) : View :=
  fun request db =>
    match issues db !! issue_id with
    | None => raises Http404 [] db
    | Some issue =>
        let back :=
          Redirect (if Issue.user issue =? fst me then "my_books"
                    else "issue_list") in
        match renew_refused issue me with
        | inl e => raises e [] db
        | inr true => responds back [(ERROR, NoRenewPermission)] db
        | inr false =>
            match Issue.return_date issue with
            | Some _ => responds back [(ERROR, BookAlreadyReturned)] db
            | None =>
                if Issue.max_renewals issue <=? Issue.renewal_count issue then
                  responds back
                    [(ERROR, MaximumRenewals (Issue.max_renewals issue))] db
                else
                  match Datetime.timedelta 7 with
                  | None => raises OverflowError [] db
                  | Some delta =>
                  match Datetime.date_add (Issue.due_date issue) delta with
                  | None => raises OverflowError [] db
                  | Some due =>
                      let issue := Issue.set_due_date due issue in
                      let issue :=
                        Issue.set_renewal_count
                          (Issue.renewal_count issue + 1) issue in
                      let db :=
                        set_issues (<[issue_id := issue]> (issues db)) db in
                      let msgs :=
                        [(SUCCESS, BookRenewed (Issue.due_date issue))] in
                      match books db !! Issue.book issue with
                      | None => raises DoesNotExist msgs db
                      | Some _ =>
                          let db :=
                            Utils.log_audit (Some (fst me)) "RENEW" "Issue"
                                            (Some issue_id) db in
                          responds back msgs db
                      end
                  end
                  end
            end
        end
    end.

Definition issue_renew (issue_id : nat) : View :=
  Utils.login_required (issue_renew_body issue_id).

(** The body of [fine_pay]. *)
Definition fine_pay_body (clk : Clock) (fine_id : nat) (me : Z * User.t)
    : View :=
  fun request db =>
    match fines db !! fine_id with
    | None => raises Http404 [] db
    | Some fine =>
        if bool_decide (method request = "POST") then
          let payment_method := default "CASH" (POST_payment_method request) in
          let fine := Fine.set_status Fine.PAID fine in
          let fine := Fine.set_payment_date (Some (date_today clk)) fine in
          let fine := Fine.set_payment_method payment_method fine in
          let db := set_fines (<[fine_id := fine]> (fines db)) db in
          let db :=
            Utils.log_audit (Some (fst me)) "PAYMENT" "Fine" (Some fine_id)
                            db in
          responds (Redirect "fine_list")
                   [(SUCCESS, FinePaid (Fine.amount fine))] db
        else responds (Render "fines/fine_pay.html") [] db
    end.

Definition fine_pay (clk : Clock) (fine_id : nat) : View :=
  Utils.librarian_required (fine_pay_body clk fine_id).

End Views.

(** ** Histories of issue and return requests *)

(** The loans of book [b] that are still out. *)
Definition on_loan (b : Z) (i : Issue.t) : bool :=
  (Issue.book i =? b) && bool_decide (Issue.return_date i = None).

Definition active_loans (b : Z) (xs : list Issue.t) : Z :=
  Z.of_nat (length (List.filter (on_loan b) xs)).

(** Every copy of a book is either on the shelf or out on an open loan:
    the shelf count is not negative and, together with the open loans,
    does not exceed the stock. *)
Definition paired (db : DB) : Prop :=
  map_Forall (fun b bk =>
    0 <= Book.available_quantity bk /\
    Book.available_quantity bk + active_loans b (issues db)
      <= Book.total_quantity bk) (books db).

Definition within_bounds (db : DB) : Prop :=
  map_Forall (fun _ bk =>
    0 <= Book.available_quantity bk <= Book.total_quantity bk) (books db).

Inductive Op :=
| DoIssue (clk : Clock) (request : Request)
| DoReturn (clk : Clock) (issue_id : nat) (request : Request).

Definition perform (op : Op) (db : DB) : Result :=
  match op with
  | DoIssue clk request => Views.issue_create clk request db
  | DoReturn clk issue_id request => Views.issue_return clk issue_id request db
  end.

Definition run (ops : list Op) (db : DB) : DB :=
  foldl (fun db op => store (perform op db)) db ops.

(** The outcome that the views report for a completed issue and for a
    completed return. *)
Definition issued (r : Result) : bool :=
  match flashed r with
  | [(SUCCESS, BookIssued _)] => true
  | _ => false
  end.

Definition returned (r : Result) : bool :=
  match flashed r with
  | [(SUCCESS, ReturnedSuccessfully)] => true
  | [(WARNING, ReturnedWithFine _)] => true
  | _ => false
  end.

Definition renewed (r : Result) : bool :=
  match flashed r with
  | [(SUCCESS, BookRenewed _)] => true
  | _ => false
  end.

(** [n] renew requests in a row on one loan, with the result of each. *)
Fixpoint renewals (n : nat) (issue_id : nat) (request : Request) (db : DB)
    : list Result :=
  match n with
  | O => []
  | S n =>
      let r := Views.issue_renew issue_id request db in
      r :: renewals n issue_id request (store r)
  end.

Definition after (rs : list Result) (db : DB) : DB :=
  default db (store <$> last rs).

(** ** A small library, for the concrete cases *)

Module Sample.

Definition librarian : User.t :=
  {| User.username := "asha";
     User.profile := Some {| UserProfile.role := "LIBRARIAN" |} |}.

Definition student : User.t :=
  {| User.username := "ravi";
     User.profile := Some {| UserProfile.role := "STUDENT" |} |}.

Definition novel : Book.t :=
  {| Book.title := "Malgudi Days"; Book.total_quantity := 2;
     Book.available_quantity := 1 |}.

(** Ravi (user 2) borrowed book 7 from Asha (user 1) on day 738000 for the
    default 14 days. *)
Definition loan : Issue.t := Issue.create 7 2 738000 738014 (Some 1).

Definition shelf : DB :=
  {| users := <[1 := librarian]> (<[2 := student]> ∅);
     books := <[7 := novel]> ∅;
     issues := [loan]; fines := []; notifications := []; audit_logs := [] |}.

Definition post (uid : Z) (b u : Field) : Request :=
  {| session_user := Some uid; method := "POST"; POST_book_id := b;
     POST_user_id := u; POST_days := Missing; POST_payment_method := None |}.

(** Five days after the due date. *)
Definition late : Clock :=
  {| date_today := 738019; timezone_now_date := 738019 |}.

Definition on_time : Clock :=
  {| date_today := 738010; timezone_now_date := 738010 |}.

(** The loan came back five days late; its fine was paid in cash on day
    738020. *)
Definition settled : Fine.t :=
  {| Fine.issue := 0; Fine.amount := 50; Fine.status := Fine.PAID;
     Fine.payment_date := Some 738020; Fine.payment_method := "CASH";
     Fine.payment_reference := "R-17"; Fine.waived_by := None;
     Fine.waive_reason := "" |}.

Definition ledger : DB :=
  set_fines [settled]
    (set_issues [Issue.set_return_date (Some 738019) loan] shelf).

Definition pay (uid : Z) (how : option string) : Request :=
  {| session_user := Some uid; method := "POST"; POST_book_id := Missing;
     POST_user_id := Missing; POST_days := Missing;
     POST_payment_method := how |}.

Definition later : Clock :=
  {| date_today := 738030; timezone_now_date := 738030 |}.

End Sample.

(** ** The four views under one name *)

Inductive Call :=
| IssueCreate (clk : Clock)
| IssueReturn (clk : Clock) (issue_id : nat)
| IssueRenew (issue_id : nat)
| FinePay (clk : Clock) (fine_id : nat).

Definition serve (c : Call) : View :=
  match c with
  | IssueCreate clk => Views.issue_create clk
  | IssueReturn clk issue_id => Views.issue_return clk issue_id
  | IssueRenew issue_id => Views.issue_renew issue_id
  | FinePay clk fine_id => Views.fine_pay clk fine_id
  end.

(** ** The listings and counters of [library/views.py] *)

Module Listings.

(** The rows that [issue_list] keeps for the [status] parameter of the
    query string; the ordering of the page is left out. *)
Definition issue_list_selects (clk : Clock) (status : option string)
    (i : Issue.t) : bool :=
  if bool_decide (status = Some "active") then
    bool_decide (Issue.return_date i = None)
  else if bool_decide (status = Some "returned") then
    negb (bool_decide (Issue.return_date i = None))
  else if bool_decide (status = Some "overdue") then
    bool_decide (Issue.return_date i = None) &&
    (Issue.due_date i <? date_today clk)
  else true.

(** The rows of [report_overdue], and of the two overdue entries of the
    dashboard: [filter(return_date__isnull=True, due_date__lt=date.today())]. *)
Definition report_overdue_selects (clk : Clock) (i : Issue.t) : bool :=
  bool_decide (Issue.return_date i = None) &&
  (Issue.due_date i <? date_today clk).

(** The counters of the librarian dashboard. *)
Definition total_books (db : DB) : nat := size (books db).

Definition active_issues (db : DB) : nat :=
  length (List.filter (fun i => bool_decide (Issue.return_date i = None))
                      (issues db)).

Definition overdue_issues (clk : Clock) (db : DB) : nat :=
  length (List.filter (report_overdue_selects clk) (issues db)).

(** [Fine.objects.filter(status='PENDING')
      .aggregate(total=Sum('amount'))['total'] or 0]:
    the sum over no row is [None], which [or 0] turns into 0. *)
Definition is_pending (f : Fine.t) : bool :=
  match Fine.status f with
  | Fine.PENDING => true
  | _ => false
  end.

Definition sum_amount (fs : list Fine.t) : Z :=
  foldr (fun f acc => Fine.amount f + acc) 0 fs.

Definition pending_fines (db : DB) : Z :=
  sum_amount (List.filter is_pending (fines db)).

(** The counters of the student dashboard, for the user [me]. *)
Definition my_issues_selects (me : Z) (i : Issue.t) : bool :=
  (Issue.user i =? me) && bool_decide (Issue.return_date i = None).

Definition my_active_issues (me : Z) (db : DB) : nat :=
  length (List.filter (my_issues_selects me) (issues db)).

Definition my_overdue (clk : Clock) (me : Z) (db : DB) : nat :=
  length (List.filter (fun i => Issue.due_date i <? date_today clk)
            (List.filter (my_issues_selects me) (issues db))).

(** [Fine.objects.filter(issue__user=request.user, status='PENDING')]:
    the join goes through the fine's loan. *)
Definition my_fines_selects (me : Z) (db : DB) (f : Fine.t) : bool :=
  match issues db !! Fine.issue f with
  | Some i => (Issue.user i =? me) && is_pending f
  | None => false
  end.

Definition my_pending_fines (me : Z) (db : DB) : Z :=
  sum_amount (List.filter (my_fines_selects me db) (fines db)).

(** Which dashboard [dashboard] renders: the librarian's for the roles
    ADMIN and LIBRARIAN, the student's for everyone else who is logged in,
    a user without a profile included. *)
Definition dashboard_template (db : DB) (request : Request) : HttpResponse :=
  match request_user db request with
  | None => Redirect "login"
  | Some me =>
      let user_role :=
        match User.profile (snd me) with
        | Some p => Some (UserProfile.role p)
        | None => None
        end in
      if bool_decide (user_role ∈ [Some "ADMIN"; Some "LIBRARIAN"])
      then Render "dashboard_librarian.html"
      else Render "dashboard_student.html"
  end.

End Listings.

(** * Properties *)

(** ** Overdue arithmetic on a returned loan *)

(** C10. A loan whose [return_date] is set is never overdue: [is_overdue] is
    [False], [days_overdue] is 0 and [calculate_fine()] is 0, whatever the
    clock and the due date are. *)
Theorem C10_returned_loan_is_never_overdue (clk : Clock) (i : Issue.t) :
  is_Some (Issue.return_date i) ->
  Issue.is_overdue clk i = false /\
  Issue.days_overdue clk i = 0 /\
  Issue.calculate_fine clk i = 0.
Proof.
  intros [d Hd].
  assert (Hov : Issue.is_overdue clk i = false)
    by (unfold Issue.is_overdue; now rewrite Hd).
  unfold Issue.calculate_fine, Issue.days_overdue.
  rewrite Hov. simpl. auto.
Qed.

Lemma C10_returned_loan_is_never_overdue_witness :
  let i := Issue.set_return_date (Some 738400) Sample.loan in
  Issue.is_overdue Sample.late i = false /\
  Issue.days_overdue Sample.late i = 0 /\
  Issue.calculate_fine Sample.late i = 0.
Proof.
  apply (C10_returned_loan_is_never_overdue Sample.late
           (Issue.set_return_date (Some 738400) Sample.loan)).
  simpl. eauto.
Defined.

(** ** The return view and fines *)

(** Getting through the decorators. *)
Lemma through_login (view : Z * User.t -> View) (P : Result -> Prop)
    (request : Request) (db : DB) :
  P (Views.responds (Redirect "login") [] db) ->
  (forall me, request_user db request = Some me -> P (view me request db)) ->
  P (Utils.login_required view request db).
Proof.
  intros Hanon Hview. unfold Utils.login_required.
  destruct (request_user db request) as [me|]; auto.
Qed.

Lemma through_role (roles : list string) (view : Z * User.t -> View)
    (P : Result -> Prop) (request : Request) (db : DB) :
  P (Views.responds (Redirect "login") [] db) ->
  P (Views.responds (Redirect "dashboard") [(ERROR, NoPagePermission)] db) ->
  (forall me p, request_user db request = Some me ->
                User.profile (snd me) = Some p ->
                UserProfile.role p ∈ roles ->
                P (view me request db)) ->
  P (Utils.role_required roles view request db).
Proof.
  intros Hanon Hdenied Hview. unfold Utils.role_required.
  apply through_login; [done|]. intros me Hme.
  destruct (User.profile (snd me)) as [p|] eqn:Hp; [|done].
  case_bool_decide; [by eapply Hview | done].
Qed.

Lemma staff_passes (view : Z * User.t -> View) (request : Request) (db : DB)
    (me : Z * User.t) :
  request_user db request = Some me -> Utils.is_librarian (snd me) = true ->
  Utils.librarian_required view request db = view me request db.
Proof.
  intros Hme Hstaff. unfold Utils.is_librarian, Utils.get_user_role in Hstaff.
  unfold Utils.librarian_required, Utils.role_required, Utils.login_required.
  rewrite Hme. destruct (User.profile (snd me)); [|done].
  by rewrite Hstaff.
Qed.

(** The overdue test of the return view reads the loan after [return_date]
    has been assigned, so its fine branch is never taken. *)
Lemma return_body_keeps_fines clk issue_id me request db :
  fines (store (Views.issue_return_body clk issue_id me request db))
  = fines db.
Proof.
  unfold Views.issue_return_body.
  destruct (issues db !! issue_id) as [i|]; [|done].
  destruct (Issue.return_date i); [done|]. simpl.
  destruct (books db !! Issue.book i); done.
Qed.

Lemma issue_return_keeps_fines clk issue_id request db :
  fines (store (Views.issue_return clk issue_id request db)) = fines db.
Proof.
  unfold Views.issue_return, Utils.librarian_required.
  apply through_role; try done.
  intros; apply return_body_keeps_fines.
Qed.

(** C1 (defect in the code). A loan due on day 738014 is returned on day
    738019, five days late. The claim asks for one PENDING fine of 50; the
    view reports a plain successful return and the fines table stays
    empty. *)
Theorem C1_late_return_creates_no_fine :
  let request := Sample.post 1 Missing Missing in
  let r := Views.issue_return Sample.late 0 request Sample.shelf in
  issues Sample.shelf !! 0%nat = Some Sample.loan /\
  Issue.return_date Sample.loan = None /\
  date_today Sample.late = Issue.due_date Sample.loan + 5 /\
  outcome r = Returns (Redirect "issue_list") /\
  flashed r = [(SUCCESS, ReturnedSuccessfully)] /\
  (Issue.return_date <$> issues (store r) !! 0%nat) = Some (Some 738019) /\
  fines (store r) = [].
Proof. vm_compute. repeat split. Qed.

(** ** Who may renew *)

(** What the permission expression of the renew view comes to: a user
    without a profile makes it raise, and otherwise the request is refused
    exactly when the role is neither ADMIN nor LIBRARIAN; the owner test
    plays no part. *)
Lemma renew_refused_by_role (issue : Issue.t) (me : Z * User.t) :
  Views.renew_refused issue me =
  match User.profile (snd me) with
  | None => inl RelatedObjectDoesNotExist
  | Some p =>
      inr (negb (bool_decide (UserProfile.role p ∈ ["ADMIN"; "LIBRARIAN"])))
  end.
Proof.
  unfold Views.renew_refused, Views.the_profile, Views.hasattr_role.
  destruct (User.profile (snd me)); destruct (Issue.user issue =? fst me);
    reflexivity.
Qed.

Lemma staff_may_renew (issue : Issue.t) (me : Z * User.t) :
  Utils.is_librarian (snd me) = true ->
  Views.renew_refused issue me = inr false.
Proof.
  intros Hstaff. unfold Utils.is_librarian, Utils.get_user_role in Hstaff.
  rewrite renew_refused_by_role.
  destruct (User.profile (snd me)); [|done]. by rewrite Hstaff.
Qed.

(** C5 (defect in the code). Ravi, a STUDENT, asks to renew his own open
    loan, which has renewals left. The claim lets the borrower renew; the
    view answers that he has no permission and changes nothing. A librarian
    making the same request is let through. *)
Theorem C5_owner_is_refused_renewal :
  let own := Sample.post 2 Missing Missing in
  let staff := Sample.post 1 Missing Missing in
  let r := Views.issue_renew 0 own Sample.shelf in
  issues Sample.shelf !! 0%nat = Some Sample.loan /\
  Issue.user Sample.loan = 2 /\
  Issue.return_date Sample.loan = None /\
  Issue.renewal_count Sample.loan < Issue.max_renewals Sample.loan /\
  outcome r = Returns (Redirect "my_books") /\
  flashed r = [(ERROR, NoRenewPermission)] /\
  store r = Sample.shelf /\
  flashed (Views.issue_renew 0 staff Sample.shelf)
    = [(SUCCESS, BookRenewed 738021)].
Proof. vm_compute. repeat split. Qed.

(** ** Issuing a book twice to one borrower *)

(** C3 (defect in the code). Ravi already holds an open loan of book 7, of
    which one copy is left. The claim asks for a refusal that changes
    nothing; the issue view hands him a second copy. The form of
    [library/forms.py], which the view does not call, refuses the same
    data. *)
Theorem C3_second_copy_is_issued :
  let request := Sample.post 1 (IntVal 7) (IntVal 2) in
  let r := Views.issue_create Sample.on_time request Sample.shelf in
  Forms.has_active_issue Sample.shelf 2 7 = true /\
  outcome r = Returns (Redirect "issue_list") /\
  flashed r = [(SUCCESS, BookIssued "ravi")] /\
  issues (store r)
    = [Sample.loan; Issue.create 7 2 738010 738024 (Some 1)] /\
  (Book.available_quantity <$> books Sample.shelf !! 7) = Some 1 /\
  (Book.available_quantity <$> books (store r) !! 7) = Some 0 /\
  Forms.IssueBookForm_clean Sample.shelf
    (Some (7, Sample.novel)) (Some (2, Sample.student))
    = inl (Forms.AlreadyIssued "ravi").
Proof. vm_compute. repeat split. Qed.

(** ** Paying a fine *)

(** C4 (the claim as written fails). The fine of the sample ledger was paid
    in cash on day 738020. A second payment, by UPI on day 738030, is
    accepted like the first and overwrites the payment date and method. *)
Lemma C4_second_payment_is_accepted :
  let request := Sample.pay 1 (Some "UPI") in
  let r := Views.fine_pay Sample.later 0 request Sample.ledger in
  fines Sample.ledger !! 0%nat = Some Sample.settled /\
  Fine.status Sample.settled = Fine.PAID /\
  outcome r = Returns (Redirect "fine_list") /\
  flashed r = [(SUCCESS, FinePaid 50)] /\
  fines (store r) !! 0%nat <> Some Sample.settled /\
  (Fine.payment_date <$> fines (store r) !! 0%nat) = Some (Some 738030) /\
  (Fine.payment_method <$> fines (store r) !! 0%nat) = Some "UPI".
Proof. vm_compute. repeat split. discriminate. Qed.

(** C4 (as amended). A payment posted by a member of staff succeeds for a
    fine in any status: the fine becomes PAID, today's date and the posted
    method (CASH when none is posted) are recorded over whatever was there,
    and the other fields of the fine and the other fines are left as they
    were. The loans, the books, the users and the notifications are
    untouched, and the audit log gets one PAYMENT entry for the fine, in
    the name of the requester. *)
Theorem C4_payment_marks_paid_in_any_status (clk : Clock) (fine_id : nat)
    (request : Request) (db : DB) (me : Z * User.t) (f : Fine.t) :
  request_user db request = Some me ->
  Utils.is_librarian (snd me) = true ->
  method request = "POST" ->
  fines db !! fine_id = Some f ->
  let r := Views.fine_pay clk fine_id request db in
  outcome r = Returns (Redirect "fine_list") /\
  flashed r = [(SUCCESS, FinePaid (Fine.amount f))] /\
  fines (store r) =
    <[fine_id :=
        {| Fine.issue := Fine.issue f; Fine.amount := Fine.amount f;
           Fine.status := Fine.PAID;
           Fine.payment_date := Some (date_today clk);
           Fine.payment_method :=
             default "CASH" (POST_payment_method request);
           Fine.payment_reference := Fine.payment_reference f;
           Fine.waived_by := Fine.waived_by f;
           Fine.waive_reason := Fine.waive_reason f |}]> (fines db) /\
  issues (store r) = issues db /\ books (store r) = books db /\
  users (store r) = users db /\
  notifications (store r) = notifications db /\
  audit_logs (store r) =
    audit_logs db ++
      [ {| AuditLog.user := Some (fst me);
           AuditLog.action := "PAYMENT";
           AuditLog.model_name := "Fine";
           AuditLog.object_id := Some fine_id |} ].
Proof.
  intros Hme Hstaff Hpost Hf r. subst r.
  unfold Views.fine_pay. rewrite (staff_passes _ _ _ _ Hme Hstaff).
  unfold Views.fine_pay_body. rewrite Hf, Hpost. simpl. done.
Qed.

Lemma C4_payment_marks_paid_in_any_status_witness :
  let r := Views.fine_pay Sample.later 0 (Sample.pay 1 None) Sample.ledger in
  outcome r = Returns (Redirect "fine_list") /\
  flashed r = [(SUCCESS, FinePaid 50)] /\
  fines (store r) =
    [ {| Fine.issue := 0; Fine.amount := 50; Fine.status := Fine.PAID;
         Fine.payment_date := Some 738030; Fine.payment_method := "CASH";
         Fine.payment_reference := "R-17"; Fine.waived_by := None;
         Fine.waive_reason := "" |} ] /\
  issues (store r) = issues Sample.ledger /\
  books (store r) = books Sample.ledger /\
  users (store r) = users Sample.ledger /\
  notifications (store r) = notifications Sample.ledger /\
  audit_logs (store r) =
    audit_logs Sample.ledger ++
      [ {| AuditLog.user := Some 1; AuditLog.action := "PAYMENT";
           AuditLog.model_name := "Fine";
           AuditLog.object_id := Some 0%nat |} ].
Proof.
  apply (C4_payment_marks_paid_in_any_status Sample.later 0
           (Sample.pay 1 None) Sample.ledger (1, Sample.librarian)
           Sample.settled).
  - reflexivity.
  - reflexivity.
  - reflexivity.
  - reflexivity.
Defined.

(** ** Issuing *)

(** A completed issue, read backwards: who asked, for which book and
    borrower, and the database it leaves. *)
Lemma issue_create_inversion (clk : Clock) (request : Request) (db : DB) :
  issued (Views.issue_create clk request db) = true ->
  exists me book_id bk user_id usr days,
    request_user db request = Some me /\
    Utils.is_librarian (snd me) = true /\
    method request = "POST" /\
    POST_book_id request = IntVal book_id /\
    books db !! book_id = Some bk /\
    0 < Book.available_quantity bk /\
    POST_user_id request = IntVal user_id /\
    users db !! user_id = Some usr /\
    Views.int_or 14 (POST_days request) = inr days /\
    0 < date_today clk + days <= Datetime.MAXORDINAL /\
    Views.issue_create clk request db =
      Views.responds (Redirect "issue_list")
        [(SUCCESS, BookIssued (User.username usr))]
        {| users := users db;
           books :=
             <[book_id :=
                 Book.set_available_quantity
                   (Book.available_quantity bk - 1) bk]> (books db);
           issues :=
             issues db ++
               [Issue.create book_id user_id (date_today clk)
                             (date_today clk + days) (Some (fst me))];
           fines := fines db;
           notifications :=
             notifications db ++
               [ {| Notification.user := user_id;
                    Notification.notification_type := "GENERAL";
                    Notification.title := "Book Issued" |} ];
           audit_logs :=
             audit_logs db ++
               [ {| AuditLog.user := Some (fst me);
                    AuditLog.action := "ISSUE";
                    AuditLog.model_name := "Issue";
                    AuditLog.object_id := Some (length (issues db)) |} ] |}.
Proof.
  unfold Views.issue_create, Utils.librarian_required.
  apply through_role; try done.
  intros me p Hme Hp Hrole.
  assert (Hstaff : Utils.is_librarian (snd me) = true)
    by (unfold Utils.is_librarian, Utils.get_user_role; rewrite Hp;
        by apply bool_decide_eq_true_2).
  unfold Views.issue_create_body.
  case_bool_decide as Hpost; [|done].
  destruct (Views.int_or 14 (POST_days request)) as [|days] eqn:Hdays; [done|].
  unfold Views.objects_get.
  destruct (POST_book_id request) as [| |book_id] eqn:Hb; try done.
  destruct (books db !! book_id) as [bk|] eqn:Hbk; [|done].
  destruct (POST_user_id request) as [| |user_id] eqn:Hu; try done.
  destruct (users db !! user_id) as [usr|] eqn:Husr; [|done].
  destruct (Z.leb_spec (Book.available_quantity bk) 0) as [|Havail]; [done|].
  destruct (Datetime.timedelta days) as [delta|] eqn:Hdelta; [|done].
  unfold Datetime.timedelta in Hdelta. case_match; simplify_eq.
  unfold Datetime.date_add. simpl.
  destruct (Z.ltb_spec 0 (date_today clk + delta)) as [H1|]; [|done].
  destruct (Z.leb_spec (date_today clk + delta) Datetime.MAXORDINAL)
    as [H2|]; [|done].
  intros _. exists me, book_id, bk, user_id, usr, delta.
  repeat split; try done.
Qed.

(** The converse: a POST by staff for a book with a copy left, for an
    existing borrower and with a period that stays inside the calendar,
    completes. *)
Lemma issue_create_succeeds (clk : Clock) (request : Request) (db : DB)
    (me : Z * User.t) (book_id user_id days : Z) (bk : Book.t)
    (usr : User.t) :
  request_user db request = Some me ->
  Utils.is_librarian (snd me) = true ->
  method request = "POST" ->
  POST_book_id request = IntVal book_id ->
  books db !! book_id = Some bk ->
  0 < Book.available_quantity bk ->
  POST_user_id request = IntVal user_id ->
  users db !! user_id = Some usr ->
  Views.int_or 14 (POST_days request) = inr days ->
  0 < date_today clk + days <= Datetime.MAXORDINAL ->
  Z.abs days <= Datetime.MAX_DELTA_DAYS ->
  issued (Views.issue_create clk request db) = true.
Proof.
  intros Hme Hstaff Hpost Hb Hbk Havail Hu Husr Hdays [H1 H2] Hdelta.
  unfold Views.issue_create. rewrite (staff_passes _ _ _ _ Hme Hstaff).
  unfold Views.issue_create_body, Views.objects_get, Datetime.timedelta,
    Datetime.date_add.
  rewrite Hpost, Hdays, Hb, Hbk, Hu, Husr. simpl.
  destruct (Z.leb_spec (Book.available_quantity bk) 0); [lia|].
  destruct (Z.leb_spec (Z.abs days) Datetime.MAX_DELTA_DAYS); [|lia].
  destruct (Z.ltb_spec 0 (date_today clk + days)); [|lia].
  destruct (Z.leb_spec (date_today clk + days) Datetime.MAXORDINAL); [|lia].
  reflexivity.
Qed.

(** C9. Every issue that completes was asked for a book with a copy left;
    it lowers that book's [available_quantity] by exactly 1 and adds one
    loan whose due date is the issue date plus the loan period, with no
    renewals and no return date. The loan period is the number of days
    that the request posts, and 14 when it posts none; a request whose
    days are not a number does not complete. *)
Theorem C9_issue_opens_an_active_loan (clk : Clock) (request : Request)
    (db : DB) :
  issued (Views.issue_create clk request db) = true ->
  exists book_id bk user_id days loan,
    let db' := store (Views.issue_create clk request db) in
    POST_book_id request = IntVal book_id /\
    POST_user_id request = IntVal user_id /\
    Views.int_or 14 (POST_days request) = inr days /\
    (POST_days request = Missing -> days = 14) /\
    (forall z, POST_days request = IntVal z -> days = z) /\
    POST_days request <> Malformed /\
    books db !! book_id = Some bk /\
    0 < Book.available_quantity bk /\
    books db' =
      <[book_id := {| Book.title := Book.title bk;
                      Book.total_quantity := Book.total_quantity bk;
                      Book.available_quantity :=
                        Book.available_quantity bk - 1 |}]> (books db) /\
    issues db' = issues db ++ [loan] /\
    Issue.book loan = book_id /\
    Issue.user loan = user_id /\
    Issue.issue_date loan = date_today clk /\
    Issue.due_date loan = Issue.issue_date loan + days /\
    Issue.renewal_count loan = 0 /\
    Issue.return_date loan = None.
Proof.
  intros Hok.
  destruct (issue_create_inversion clk request db Hok)
    as (me & book_id & bk & user_id & usr & days & Hme & Hstaff & Hpost &
        Hb & Hbk & Havail & Hu & Husr & Hdays & Hrange & Heq).
  exists book_id, bk, user_id, days,
    (Issue.create book_id user_id (date_today clk) (date_today clk + days)
                  (Some (fst me))).
  rewrite Heq. simpl.
  split; [done|]. split; [done|]. split; [done|].
  split; [|split; [|split]].
  - intros Hmissing. rewrite Hmissing in Hdays. simpl in Hdays. congruence.
  - intros z Hz. rewrite Hz in Hdays. simpl in Hdays. congruence.
  - intros Hbad. rewrite Hbad in Hdays. discriminate.
  - by repeat split.
Qed.

Lemma C9_issue_opens_an_active_loan_witness :
  let request :=
    {| session_user := Some 1; method := "POST"; POST_book_id := IntVal 7;
       POST_user_id := IntVal 1; POST_days := IntVal 21;
       POST_payment_method := None |} in
  exists book_id bk user_id days loan,
    let db' := store (Views.issue_create Sample.on_time request Sample.shelf) in
    POST_book_id request = IntVal book_id /\
    POST_user_id request = IntVal user_id /\
    Views.int_or 14 (POST_days request) = inr days /\
    (POST_days request = Missing -> days = 14) /\
    (forall z, POST_days request = IntVal z -> days = z) /\
    POST_days request <> Malformed /\
    books Sample.shelf !! book_id = Some bk /\
    0 < Book.available_quantity bk /\
    books db' =
      <[book_id := {| Book.title := Book.title bk;
                      Book.total_quantity := Book.total_quantity bk;
                      Book.available_quantity :=
                        Book.available_quantity bk - 1 |}]>
        (books Sample.shelf) /\
    issues db' = issues Sample.shelf ++ [loan] /\
    Issue.book loan = book_id /\
    Issue.user loan = user_id /\
    Issue.issue_date loan = date_today Sample.on_time /\
    Issue.due_date loan = Issue.issue_date loan + days /\
    Issue.renewal_count loan = 0 /\
    Issue.return_date loan = None.
Proof.
  apply (C9_issue_opens_an_active_loan Sample.on_time
           {| session_user := Some 1; method := "POST";
              POST_book_id := IntVal 7; POST_user_id := IntVal 1;
              POST_days := IntVal 21; POST_payment_method := None |}
           Sample.shelf).
  reflexivity.
Defined.

(** C8. A request to issue a book whose [available_quantity] is 0 changes
    nothing: no loan is created and the count stays 0. When the request is
    a well-formed POST by staff, the answer is 'Book is not available!'. *)
Theorem C8_no_copy_no_issue (clk : Clock) (request : Request) (db : DB)
    (book_id : Z) (bk : Book.t) :
  books db !! book_id = Some bk ->
  Book.available_quantity bk = 0 ->
  POST_book_id request = IntVal book_id ->
  let r := Views.issue_create clk request db in
  store r = db /\
  issued r = false /\
  (forall me user_id usr days,
     request_user db request = Some me ->
     Utils.is_librarian (snd me) = true ->
     method request = "POST" ->
     Views.int_or 14 (POST_days request) = inr days ->
     POST_user_id request = IntVal user_id ->
     users db !! user_id = Some usr ->
     outcome r = Returns (Render "issues/issue_create.html") /\
     flashed r = [(ERROR, BookNotAvailable)]).
Proof.
  intros Hbk Hzero Hb r.
  assert (Hbody : forall me,
    let r := Views.issue_create_body clk me request db in
    store r = db /\ issued r = false /\
    (forall user_id usr days,
       method request = "POST" ->
       Views.int_or 14 (POST_days request) = inr days ->
       POST_user_id request = IntVal user_id ->
       users db !! user_id = Some usr ->
       outcome r = Returns (Render "issues/issue_create.html") /\
       flashed r = [(ERROR, BookNotAvailable)])).
  { intros me. unfold Views.issue_create_body, Views.objects_get.
    rewrite Hb, Hbk, Hzero. simpl.
    case_bool_decide as Hpost;
      [|by repeat split; try done; intros; simplify_eq].
    destruct (Views.int_or 14 (POST_days request)) as [|days] eqn:Hdays;
      [by repeat split; try done; intros; simplify_eq|].
    destruct (POST_user_id request) as [| |user_id] eqn:Hu;
      try by repeat split; try done; intros; simplify_eq.
    destruct (users db !! user_id) eqn:Husr;
      by repeat split; try done; intros; simplify_eq. }
  subst r. unfold Views.issue_create. split; [|split].
  - unfold Utils.librarian_required.
    apply through_role; try done. intros me ? _ _ _. apply Hbody.
  - unfold Utils.librarian_required.
    apply through_role; try done. intros me ? _ _ _. apply Hbody.
  - intros me user_id usr days Hme Hstaff Hpost Hdays Hu Husr.
    rewrite (staff_passes _ _ _ _ Hme Hstaff).
    by eapply Hbody.
Qed.

Lemma C8_no_copy_no_issue_witness :
  let request := Sample.post 1 (IntVal 7) (IntVal 1) in
  let db := store (Views.issue_create Sample.on_time request Sample.shelf) in
  let r := Views.issue_create Sample.on_time request db in
  (Book.available_quantity <$> books db !! 7) = Some 0 /\
  store r = db /\
  issued r = false /\
  outcome r = Returns (Render "issues/issue_create.html") /\
  flashed r = [(ERROR, BookNotAvailable)].
Proof.
  pose proof
    (C8_no_copy_no_issue Sample.on_time
       (Sample.post 1 (IntVal 7) (IntVal 1))
       (store (Views.issue_create Sample.on_time
                 (Sample.post 1 (IntVal 7) (IntVal 1)) Sample.shelf))
       7 (Book.set_available_quantity 0 Sample.novel)
       eq_refl eq_refl eq_refl) as (Hsame & Hnot & Hmsg).
  split; [reflexivity|]. split; [exact Hsame|]. split; [exact Hnot|].
  apply (Hmsg (1, Sample.librarian) 1 Sample.librarian 14); reflexivity.
Defined.

(** ** Renewing *)

(** One renewal that is let through and has renewals left. *)
Lemma renew_step (issue_id : nat) (request : Request) (db : DB)
    (me : Z * User.t) (i : Issue.t) (bk : Book.t) :
  request_user db request = Some me ->
  Utils.is_librarian (snd me) = true ->
  issues db !! issue_id = Some i ->
  Issue.return_date i = None ->
  Issue.renewal_count i < Issue.max_renewals i ->
  books db !! Issue.book i = Some bk ->
  0 < Issue.due_date i + 7 <= Datetime.MAXORDINAL ->
  let r := Views.issue_renew issue_id request db in
  renewed r = true /\
  flashed r = [(SUCCESS, BookRenewed (Issue.due_date i + 7))] /\
  issues (store r) =
    <[issue_id := Issue.set_renewal_count (Issue.renewal_count i + 1)
                    (Issue.set_due_date (Issue.due_date i + 7) i)]>
      (issues db) /\
  users (store r) = users db /\
  books (store r) = books db /\
  fines (store r) = fines db.
Proof.
  intros Hme Hstaff Hi Hopen Hleft Hbk [H1 H2] r. subst r.
  unfold Views.issue_renew, Utils.login_required. rewrite Hme.
  unfold Views.issue_renew_body.
  rewrite Hi, (staff_may_renew i me Hstaff), Hopen.
  destruct (Z.leb_spec (Issue.max_renewals i) (Issue.renewal_count i));
    [lia|].
  unfold Datetime.date_add. simpl.
  destruct (Z.ltb_spec 0 (Issue.due_date i + 7)); [|lia].
  destruct (Z.leb_spec (Issue.due_date i + 7) Datetime.MAXORDINAL); [|lia].
  simpl. rewrite Hbk. done.
Qed.

(** A renewal that is let through when no renewal is left. *)
Lemma renew_at_limit (issue_id : nat) (request : Request) (db : DB)
    (me : Z * User.t) (i : Issue.t) :
  request_user db request = Some me ->
  Utils.is_librarian (snd me) = true ->
  issues db !! issue_id = Some i ->
  Issue.return_date i = None ->
  Issue.max_renewals i <= Issue.renewal_count i ->
  let r := Views.issue_renew issue_id request db in
  flashed r = [(ERROR, MaximumRenewals (Issue.max_renewals i))] /\
  store r = db.
Proof.
  intros Hme Hstaff Hi Hopen Hfull r. subst r.
  unfold Views.issue_renew, Utils.login_required. rewrite Hme.
  unfold Views.issue_renew_body.
  rewrite Hi, (staff_may_renew i me Hstaff), Hopen.
  destruct (Z.leb_spec (Issue.max_renewals i) (Issue.renewal_count i));
    [done|lia].
Qed.

Lemma request_user_ext (db db' : DB) (request : Request) :
  users db' = users db -> request_user db' request = request_user db request.
Proof. intros Hu. unfold request_user. by rewrite Hu. Qed.

Lemma renewed_twice (i : Issue.t) (k : Z) :
  Issue.set_renewal_count
    (Issue.renewal_count
       (Issue.set_renewal_count (Issue.renewal_count i + 1)
          (Issue.set_due_date (Issue.due_date i + 7) i)) + k)
    (Issue.set_due_date
       (Issue.due_date
          (Issue.set_renewal_count (Issue.renewal_count i + 1)
             (Issue.set_due_date (Issue.due_date i + 7) i)) + 7 * k)
       (Issue.set_renewal_count (Issue.renewal_count i + 1)
          (Issue.set_due_date (Issue.due_date i + 7) i)))
  = Issue.set_renewal_count (Issue.renewal_count i + (k + 1))
      (Issue.set_due_date (Issue.due_date i + 7 * (k + 1)) i).
Proof.
  destruct i. unfold Issue.set_renewal_count, Issue.set_due_date. simpl.
  f_equal; lia.
Qed.

Lemma renewed_eq (i : Issue.t) (a a' b b' : Z) :
  a = a' -> b = b' ->
  Some (Issue.set_renewal_count a (Issue.set_due_date b i))
  = Some (Issue.set_renewal_count a' (Issue.set_due_date b' i)).
Proof. by intros -> ->. Qed.

(** [n] renewals in a row, [n] being at most the renewals left: the
    [k]-th of them (counting from 0) completes and leaves the loan with
    [k + 1] more renewals and a due date [7 * (k + 1)] days later. *)
Lemma renewals_progress (n : nat) : forall (issue_id : nat)
    (request : Request) (db : DB) (me : Z * User.t) (i : Issue.t)
    (bk : Book.t),
  request_user db request = Some me ->
  Utils.is_librarian (snd me) = true ->
  issues db !! issue_id = Some i ->
  Issue.return_date i = None ->
  books db !! Issue.book i = Some bk ->
  Issue.renewal_count i + Z.of_nat n <= Issue.max_renewals i ->
  0 < Issue.due_date i + 7 ->
  Issue.due_date i + 7 * Z.of_nat n <= Datetime.MAXORDINAL ->
  forall (k : nat) (r : Result),
    renewals n issue_id request db !! k = Some r ->
    renewed r = true /\
    flashed r
      = [(SUCCESS, BookRenewed (Issue.due_date i + 7 * (Z.of_nat k + 1)))] /\
    issues (store r) !! issue_id =
      Some (Issue.set_renewal_count
              (Issue.renewal_count i + (Z.of_nat k + 1))
              (Issue.set_due_date
                 (Issue.due_date i + 7 * (Z.of_nat k + 1)) i)) /\
    users (store r) = users db /\
    books (store r) = books db.
Proof.
  induction n as [|n IH];
    intros issue_id request db me i bk Hme Hstaff Hi Hopen Hbk Hleft Hlo Hhi
           k r Hk; [done|].
  simpl in Hk.
  destruct (renew_step issue_id request db me i bk)
    as (Hok & Hmsg & Hissues & Husers & Hbooks & _);
    try done; try lia.
  remember (Views.issue_renew issue_id request db) as r0 eqn:Hr0.
  clear Hr0.
  assert (Hlen : (issue_id < length (issues db))%nat)
    by (by eapply lookup_lt_Some).
  destruct k as [|k]; simplify_eq/=.
  - split; [done|]. split; [|split; [|done]].
    + rewrite Hmsg; do 3 f_equal; lia.
    + rewrite Hissues, list_lookup_insert_eq by done.
      apply renewed_eq; lia.
  - remember (Issue.set_renewal_count (Issue.renewal_count i + 1)
                (Issue.set_due_date (Issue.due_date i + 7) i)) as i1 eqn:Hi1.
    destruct (IH issue_id request (store r0) me i1 bk) with (k := k) (r := r)
      as (Hok' & Hmsg' & Hissues' & Husers' & Hbooks'); try done.
    + by rewrite (request_user_ext _ _ _ Husers).
    + by rewrite Hissues, list_lookup_insert_eq.
    + by rewrite Hi1.
    + by rewrite Hbooks, Hi1.
    + rewrite Hi1. simpl. lia.
    + rewrite Hi1. simpl. lia.
    + rewrite Hi1. simpl. lia.
    + split; [done|]. split; [|split; [|split]].
      * rewrite Hmsg', Hi1; simpl; do 3 f_equal; lia.
      * rewrite Hissues', Hi1, renewed_twice.
        apply renewed_eq; lia.
      * by rewrite Husers'.
      * by rewrite Hbooks'.
Qed.

Lemma renewals_length (n : nat) : forall issue_id request db,
  length (renewals n issue_id request db) = n.
Proof. induction n as [|n IH]; intros; simpl; [done|]. by rewrite IH. Qed.

(** C6. A loan that is still out has [n] renewals left
    ([renewal_count + n = max_renewals]; [n] is [max_renewals] for a fresh
    loan). [n] renewals in a row, requested by someone the view lets
    through, all complete: each moves the due date 7 days on and raises
    [renewal_count] by 1. The next request is answered 'Maximum renewals
    (...) reached!' and leaves the database, hence the due date and the
    count, as it was. *)
Theorem C6_renewals_stop_at_the_limit (issue_id : nat) (request : Request)
    (db : DB) (me : Z * User.t) (i : Issue.t) (bk : Book.t) (n : nat) :
  request_user db request = Some me ->
  Utils.is_librarian (snd me) = true ->
  issues db !! issue_id = Some i ->
  Issue.return_date i = None ->
  books db !! Issue.book i = Some bk ->
  Issue.renewal_count i + Z.of_nat n = Issue.max_renewals i ->
  0 < Issue.due_date i + 7 ->
  Issue.due_date i + 7 * Z.of_nat n <= Datetime.MAXORDINAL ->
  let rs := renewals n issue_id request db in
  let db' := after rs db in
  let one_more := Views.issue_renew issue_id request db' in
  length rs = n /\
  (forall (k : nat) (r : Result), rs !! k = Some r ->
     renewed r = true /\
     (Issue.due_date <$> issues (store r) !! issue_id)
       = Some (Issue.due_date i + 7 * (Z.of_nat k + 1)) /\
     (Issue.renewal_count <$> issues (store r) !! issue_id)
       = Some (Issue.renewal_count i + (Z.of_nat k + 1))) /\
  issues db' !! issue_id =
    Some (Issue.set_renewal_count (Issue.max_renewals i)
            (Issue.set_due_date (Issue.due_date i + 7 * Z.of_nat n) i)) /\
  flashed one_more = [(ERROR, MaximumRenewals (Issue.max_renewals i))] /\
  store one_more = db'.
Proof.
  intros Hme Hstaff Hi Hopen Hbk Hleft Hlo Hhi rs db' one_more.
  assert (Hlen : length rs = n) by apply renewals_length.
  assert (Hall := renewals_progress n issue_id request db me i bk
                    Hme Hstaff Hi Hopen Hbk ltac:(lia) Hlo Hhi).
  fold rs in Hall.
  split; [done|]. split.
  { intros k r Hk. destruct (Hall k r Hk) as (Hok & _ & Hissue & _).
    rewrite Hissue. by repeat split. }
  assert (Hend :
    request_user db' request = Some me /\
    issues db' !! issue_id =
      Some (Issue.set_renewal_count (Issue.max_renewals i)
              (Issue.set_due_date (Issue.due_date i + 7 * Z.of_nat n) i))).
  { subst db'. unfold after. rewrite last_lookup, Hlen.
    destruct n as [|m].
    - simpl. split; [done|]. rewrite Hi. destruct i; simpl in *.
      unfold Issue.set_renewal_count, Issue.set_due_date; simpl.
      do 2 f_equal; lia.
    - simpl. assert (is_Some (rs !! m)) as [r Hr]
        by (apply lookup_lt_is_Some; lia).
      rewrite Hr. simpl.
      destruct (Hall m r Hr) as (_ & _ & Hissue & Husers & _).
      split; [by rewrite (request_user_ext _ _ _ Husers)|].
      rewrite Hissue. apply renewed_eq; lia. }
  destruct Hend as [Hme' Hi']. split; [done|].
  subst one_more.
  by apply (renew_at_limit issue_id request db' me _ Hme' Hstaff Hi').
Qed.

Lemma C6_renewals_stop_at_the_limit_witness :
  let request := Sample.post 1 Missing Missing in
  let rs := renewals 2 0 request Sample.shelf in
  let db' := after rs Sample.shelf in
  let one_more := Views.issue_renew 0 request db' in
  length rs = 2%nat /\
  (forall (k : nat) (r : Result), rs !! k = Some r ->
     renewed r = true /\
     (Issue.due_date <$> issues (store r) !! 0%nat)
       = Some (Issue.due_date Sample.loan + 7 * (Z.of_nat k + 1)) /\
     (Issue.renewal_count <$> issues (store r) !! 0%nat)
       = Some (Issue.renewal_count Sample.loan + (Z.of_nat k + 1))) /\
  issues db' !! 0%nat =
    Some (Issue.set_renewal_count (Issue.max_renewals Sample.loan)
            (Issue.set_due_date
               (Issue.due_date Sample.loan + 7 * Z.of_nat 2) Sample.loan)) /\
  flashed one_more
    = [(ERROR, MaximumRenewals (Issue.max_renewals Sample.loan))] /\
  store one_more = db'.
Proof.
  apply (C6_renewals_stop_at_the_limit 0 (Sample.post 1 Missing Missing)
           Sample.shelf (1, Sample.librarian) Sample.loan Sample.novel 2).
  - reflexivity.
  - reflexivity.
  - reflexivity.
  - reflexivity.
  - reflexivity.
  - reflexivity.
  - reflexivity.
  - vm_compute. discriminate.
Defined.

(** ** A returned loan *)

(** C7. Once [return_date] is set, a return request and a renew request on
    the loan change nothing at all: the loan, its book's
    [available_quantity] and every other record stay as they were. Whoever
    the views let through is told 'Book already returned!'. *)
Theorem C7_returned_loan_is_closed (issue_id : nat) (db : DB) (i : Issue.t) :
  issues db !! issue_id = Some i ->
  is_Some (Issue.return_date i) ->
  (forall clk request,
     let r := Views.issue_return clk issue_id request db in
     store r = db /\
     (forall me, request_user db request = Some me ->
                 Utils.is_librarian (snd me) = true ->
                 outcome r = Returns (Redirect "issue_list") /\
                 flashed r = [(WARNING, BookAlreadyReturned)])) /\
  (forall request,
     let r := Views.issue_renew issue_id request db in
     store r = db /\
     (forall me, request_user db request = Some me ->
                 Utils.is_librarian (snd me) = true ->
                 flashed r = [(ERROR, BookAlreadyReturned)])).
Proof.
  intros Hi [d Hd]. split.
  - intros clk request r. subst r. split.
    + unfold Views.issue_return, Utils.librarian_required.
      apply through_role; try done. intros me p _ _ _.
      unfold Views.issue_return_body. by rewrite Hi, Hd.
    + intros me Hme Hstaff. unfold Views.issue_return.
      rewrite (staff_passes _ _ _ _ Hme Hstaff).
      unfold Views.issue_return_body. by rewrite Hi, Hd.
  - intros request r. subst r. split.
    + unfold Views.issue_renew. apply through_login; [done|].
      intros me _. unfold Views.issue_renew_body. rewrite Hi, Hd.
      by destruct (Views.renew_refused i me) as [|[]].
    + intros me Hme Hstaff. unfold Views.issue_renew, Utils.login_required.
      rewrite Hme. unfold Views.issue_renew_body.
      by rewrite Hi, (staff_may_renew i me Hstaff), Hd.
Qed.

Lemma C7_returned_loan_is_closed_witness :
  let request := Sample.post 1 Missing Missing in
  let db := store (Views.issue_return Sample.on_time 0 request Sample.shelf) in
  (Issue.return_date <$> issues db !! 0%nat) = Some (Some 738010) /\
  (Book.available_quantity <$> books db !! 7) = Some 2 /\
  store (Views.issue_return Sample.late 0 request db) = db /\
  flashed (Views.issue_return Sample.late 0 request db)
    = [(WARNING, BookAlreadyReturned)] /\
  store (Views.issue_renew 0 request db) = db /\
  flashed (Views.issue_renew 0 request db) = [(ERROR, BookAlreadyReturned)].
Proof.
  pose proof
    (C7_returned_loan_is_closed 0
       (store (Views.issue_return Sample.on_time 0
                 (Sample.post 1 Missing Missing) Sample.shelf))
       (Issue.set_returned_to (Some 1)
          (Issue.set_return_date (Some 738010) Sample.loan))
       eq_refl (ex_intro _ 738010 eq_refl)) as [Hreturn Hrenew].
  destruct (Hreturn Sample.late (Sample.post 1 Missing Missing))
    as [Hsame Hmsg].
  destruct (Hrenew (Sample.post 1 Missing Missing)) as [Hsame' Hmsg'].
  split; [reflexivity|]. split; [reflexivity|].
  split; [exact Hsame|].
  split; [exact (proj2 (Hmsg (1, Sample.librarian) eq_refl eq_refl))|].
  split; [exact Hsame'|].
  exact (Hmsg' (1, Sample.librarian) eq_refl eq_refl).
Defined.

(** ** Copies on the shelf *)

Lemma active_loans_app (b : Z) (xs ys : list Issue.t) :
  active_loans b (xs ++ ys) = active_loans b xs + active_loans b ys.
Proof.
  unfold active_loans. rewrite List.filter_app, length_app. lia.
Qed.

Lemma active_loans_one (b : Z) (i : Issue.t) :
  active_loans b [i] = if on_loan b i then 1 else 0.
Proof. unfold active_loans. simpl. by destruct (on_loan b i). Qed.

Lemma active_loans_nonneg (b : Z) (xs : list Issue.t) :
  0 <= active_loans b xs.
Proof. unfold active_loans. lia. Qed.

(** Rewriting one row moves the count by that row alone. *)
Lemma active_loans_insert (b : Z) (xs : list Issue.t) (issue_id : nat)
    (old new : Issue.t) :
  xs !! issue_id = Some old ->
  active_loans b (<[issue_id := new]> xs) =
  active_loans b xs - (if on_loan b old then 1 else 0)
                    + (if on_loan b new then 1 else 0).
Proof.
  intros Hold.
  assert (Hlen : (issue_id < length xs)%nat) by (by eapply lookup_lt_Some).
  rewrite insert_take_drop by done.
  rewrite <- (take_drop_middle xs issue_id old Hold) at 3.
  rewrite !active_loans_app.
  change (new :: drop (S issue_id) xs) with ([new] ++ drop (S issue_id) xs).
  change (old :: drop (S issue_id) xs) with ([old] ++ drop (S issue_id) xs).
  rewrite !active_loans_app, !active_loans_one. lia.
Qed.

Lemma paired_within_bounds (db : DB) : paired db -> within_bounds db.
Proof.
  intros Hp b bk Hbk. destruct (Hp b bk Hbk) as [H0 Hle].
  pose proof (active_loans_nonneg b (issues db)). lia.
Qed.

(** An issue request that does not complete writes nothing. *)
Lemma issue_create_not_issued (clk : Clock) (request : Request) (db : DB) :
  issued (Views.issue_create clk request db) = false ->
  store (Views.issue_create clk request db) = db.
Proof.
  unfold Views.issue_create, Utils.librarian_required.
  apply through_role; try done. intros me p _ _ _.
  unfold Views.issue_create_body, Views.objects_get.
  case_bool_decide; [|done].
  destruct (Views.int_or 14 (POST_days request)); [done|].
  destruct (POST_book_id request) as [| |book_id]; try done.
  destruct (books db !! book_id); [|done].
  destruct (POST_user_id request) as [| |user_id]; try done.
  destruct (users db !! user_id); [|done].
  destruct (Book.available_quantity _ <=? 0); [done|].
  destruct (Datetime.timedelta _); [|done].
  destruct (Datetime.date_add _ _); done.
Qed.

(** The three ways a return request can end: nothing written; the loan
    closed but its book row missing, so no count to raise; the loan closed
    and the count raised by 1. *)
Lemma issue_return_cases (clk : Clock) (issue_id : nat) (request : Request)
    (db : DB) :
  let r := Views.issue_return clk issue_id request db in
  (store r = db /\ returned r = false) \/
  exists me i,
    issues db !! issue_id = Some i /\
    Issue.return_date i = None /\
    issues (store r) =
      <[issue_id := Issue.set_returned_to (Some me)
                      (Issue.set_return_date (Some (date_today clk)) i)]>
        (issues db) /\
    ((books db !! Issue.book i = None /\ books (store r) = books db /\
      returned r = false) \/
     (exists bk, books db !! Issue.book i = Some bk /\
        returned r = true /\
        books (store r) =
          <[Issue.book i :=
              Book.set_available_quantity (Book.available_quantity bk + 1)
                                          bk]> (books db))).
Proof.
  intros r. subst r. unfold Views.issue_return, Utils.librarian_required.
  apply through_role; try (by left). intros me p _ _ _.
  unfold Views.issue_return_body.
  destruct (issues db !! issue_id) as [i|] eqn:Hi; [|by left].
  destruct (Issue.return_date i) eqn:Hopen; [by left|].
  right. exists (fst me), i. simpl.
  destruct (books db !! Issue.book i) as [bk|] eqn:Hbk.
  - repeat split; try done. right. exists bk. by repeat split.
  - repeat split; try done. by left.
Qed.

Lemma issue_create_keeps_paired (clk : Clock) (request : Request) (db : DB) :
  paired db -> paired (store (Views.issue_create clk request db)).
Proof.
  intros Hp.
  destruct (issued (Views.issue_create clk request db)) eqn:Hok;
    [|by rewrite issue_create_not_issued].
  destruct (issue_create_inversion clk request db Hok)
    as (me & book_id & bk & user_id & usr & days & _ & _ & _ & _ & Hbk &
        Havail & _ & _ & _ & _ & ->).
  intros b bk'. simpl. rewrite active_loans_app, active_loans_one.
  unfold on_loan. simpl.
  destruct (decide (book_id = b)) as [->|Hne].
  - rewrite lookup_insert_eq. intros [= <-]. simpl.
    destruct (Hp b bk Hbk) as [H0 Hle]. rewrite Z.eqb_refl. simpl. lia.
  - rewrite lookup_insert_ne by done. intros Hbk'.
    destruct (Hp b bk' Hbk') as [H0 Hle].
    destruct (Z.eqb_spec book_id b); [done|]. simpl. lia.
Qed.

Lemma issue_return_keeps_paired (clk : Clock) (issue_id : nat)
    (request : Request) (db : DB) :
  paired db -> paired (store (Views.issue_return clk issue_id request db)).
Proof.
  intros Hp.
  destruct (issue_return_cases clk issue_id request db)
    as [[-> _]|(me & i & Hi & Hopen & Hissues & Hbooks)]; [done|].
  intros b bk'. rewrite Hissues.
  rewrite (active_loans_insert b _ _ i) by done.
  assert (Hclosed : on_loan b
            (Issue.set_returned_to (Some me)
               (Issue.set_return_date (Some (date_today clk)) i)) = false)
    by (unfold on_loan; simpl; apply andb_false_r).
  rewrite Hclosed.
  destruct Hbooks as [(_ & -> & _)|(bk & Hbk & _ & ->)].
  - intros Hbk'. destruct (Hp b bk' Hbk') as [H0 Hle].
    destruct (on_loan b i); lia.
  - unfold on_loan. rewrite Hopen. simpl.
    destruct (decide (Issue.book i = b)) as [<-|Hne].
    + rewrite lookup_insert_eq. intros [= <-]. simpl.
      destruct (Hp _ bk Hbk) as [H0 Hle]. rewrite Z.eqb_refl. simpl. lia.
    + rewrite lookup_insert_ne by done. intros Hbk'.
      destruct (Hp b bk' Hbk') as [H0 Hle].
      destruct (Z.eqb_spec (Issue.book i) b); [done|]. simpl. lia.
Qed.

Lemma run_keeps_paired (ops : list Op) : forall db,
  paired db -> paired (run ops db).
Proof.
  induction ops as [|op ops IH]; intros db Hp; [done|].
  simpl. apply IH. destruct op; simpl.
  - by apply issue_create_keeps_paired.
  - by apply issue_return_keeps_paired.
Qed.

(** C2. Start from a database in which every book has a count that is not
    negative and, with its open loans, within its stock. After any sequence
    of issue and return requests, and so after every prefix of it,
    [0 <= available_quantity <= total_quantity] holds for every book. An
    issue that completes lowers the count of its book by exactly 1 (and only
    happens with a copy left); a return that completes raises the count of
    its book by exactly 1. *)
Theorem C2_available_quantity_stays_in_bounds (db : DB) (ops : list Op) :
  paired db ->
  (forall k : nat, within_bounds (run (take k ops) db)) /\
  within_bounds (run ops db) /\
  (forall clk request db0,
     let r := Views.issue_create clk request db0 in
     issued r = true ->
     exists book_id bk,
       POST_book_id request = IntVal book_id /\
       books db0 !! book_id = Some bk /\
       0 < Book.available_quantity bk /\
       books (store r) =
         <[book_id := {| Book.title := Book.title bk;
                         Book.total_quantity := Book.total_quantity bk;
                         Book.available_quantity :=
                           Book.available_quantity bk - 1 |}]> (books db0)) /\
  (forall clk issue_id request db0,
     let r := Views.issue_return clk issue_id request db0 in
     returned r = true ->
     exists i bk,
       issues db0 !! issue_id = Some i /\
       books db0 !! Issue.book i = Some bk /\
       books (store r) =
         <[Issue.book i :=
             {| Book.title := Book.title bk;
                Book.total_quantity := Book.total_quantity bk;
                Book.available_quantity :=
                  Book.available_quantity bk + 1 |}]> (books db0)).
Proof.
  intros Hp. split; [|split; [|split]].
  - intros k. by apply paired_within_bounds, run_keeps_paired.
  - by apply paired_within_bounds, run_keeps_paired.
  - intros clk request db0 r Hok. subst r.
    destruct (issue_create_inversion clk request db0 Hok)
      as (me & book_id & bk & user_id & usr & days & _ & _ & _ & Hb & Hbk &
          Havail & _ & _ & _ & _ & ->).
    by exists book_id, bk.
  - intros clk issue_id request db0 r Hok. subst r.
    destruct (issue_return_cases clk issue_id request db0)
      as [[_ Hno]|(me & i & Hi & _ & _ & [(_ & _ & Hno)|(bk & Hbk & _ & ->)])];
      [congruence|congruence|].
    by exists i, bk.
Qed.

Lemma C2_available_quantity_stays_in_bounds_witness :
  let staff := Sample.post 1 (IntVal 7) (IntVal 1) in
  let ops := [DoIssue Sample.on_time staff; DoReturn Sample.late 0 staff;
              DoReturn Sample.late 0 staff; DoReturn Sample.late 1 staff;
              DoIssue Sample.late staff; DoIssue Sample.late staff;
              DoIssue Sample.late staff] in
  (Book.available_quantity <$> books (run (take 1 ops) Sample.shelf) !! 7)
    = Some 0 /\
  (Book.available_quantity <$> books (run (take 4 ops) Sample.shelf) !! 7)
    = Some 2 /\
  (Book.available_quantity <$> books (run ops Sample.shelf) !! 7) = Some 0 /\
  (forall k : nat, within_bounds (run (take k ops) Sample.shelf)) /\
  within_bounds (run ops Sample.shelf).
Proof.
  assert (Hp : paired Sample.shelf).
  { intros b bk. unfold Sample.shelf. simpl.
    destruct (decide (b = 7)) as [->|Hne].
    - rewrite lookup_insert_eq. intros [= <-]. vm_compute.
      split; discriminate.
    - rewrite lookup_insert_ne, lookup_empty by done. discriminate. }
  pose proof
    (C2_available_quantity_stays_in_bounds Sample.shelf
       [DoIssue Sample.on_time (Sample.post 1 (IntVal 7) (IntVal 1));
        DoReturn Sample.late 0 (Sample.post 1 (IntVal 7) (IntVal 1));
        DoReturn Sample.late 0 (Sample.post 1 (IntVal 7) (IntVal 1));
        DoReturn Sample.late 1 (Sample.post 1 (IntVal 7) (IntVal 1));
        DoIssue Sample.late (Sample.post 1 (IntVal 7) (IntVal 1));
        DoIssue Sample.late (Sample.post 1 (IntVal 7) (IntVal 1));
        DoIssue Sample.late (Sample.post 1 (IntVal 7) (IntVal 1))]
       Hp) as (Hall & Hend & _).
  split; [reflexivity|]. split; [reflexivity|]. split; [reflexivity|].
  split; [exact Hall | exact Hend].
Defined.

(** * Further properties of the code *)

(** ** The fine of a loan that is still out *)

(** X1. While a loan has no return date, [calculate_fine] is ten times the
    number of days by which the clock has passed the due date, and nothing
    up to and on the due date; it never falls as the clock advances. *)
Theorem X1_fine_of_an_open_loan (clk : Clock) (i : Issue.t) :
  Issue.return_date i = None ->
  Issue.is_overdue clk i = (Issue.due_date i <? timezone_now_date clk) /\
  Issue.days_overdue clk i
    = Z.max 0 (timezone_now_date clk - Issue.due_date i) /\
  Issue.calculate_fine clk i
    = 10 * Z.max 0 (timezone_now_date clk - Issue.due_date i) /\
  (forall clk' : Clock,
     timezone_now_date clk <= timezone_now_date clk' ->
     Issue.calculate_fine clk i <= Issue.calculate_fine clk' i).
Proof.
  intros Hopen.
  assert (Hov : forall c, Issue.is_overdue c i
                          = (Issue.due_date i <? timezone_now_date c))
    by (intros c; unfold Issue.is_overdue; by rewrite Hopen).
  assert (Hfine : forall c, Issue.calculate_fine c i
            = 10 * Z.max 0 (timezone_now_date c - Issue.due_date i)).
  { intros c. unfold Issue.calculate_fine, Issue.days_overdue,
      Datetime.days_between. rewrite Hov.
    destruct (Z.ltb_spec (Issue.due_date i) (timezone_now_date c));
      simpl; lia. }
  split; [apply Hov|]. split; [|split; [apply Hfine|]].
  - unfold Issue.days_overdue, Datetime.days_between. rewrite Hov.
    destruct (Z.ltb_spec (Issue.due_date i) (timezone_now_date clk));
      simpl; lia.
  - intros clk' Hlater. rewrite !Hfine. lia.
Qed.

Lemma X1_fine_of_an_open_loan_witness :
  Issue.is_overdue Sample.late Sample.loan = true /\
  Issue.days_overdue Sample.late Sample.loan = 5 /\
  Issue.calculate_fine Sample.late Sample.loan = 50 /\
  Issue.calculate_fine Sample.on_time Sample.loan = 0.
Proof.
  pose proof (X1_fine_of_an_open_loan Sample.late Sample.loan eq_refl)
    as (Hov & Hdays & Hfine & _).
  pose proof (X1_fine_of_an_open_loan Sample.on_time Sample.loan eq_refl)
    as (_ & _ & Hfine0 & _).
  split; [exact Hov|]. split; [exact Hdays|]. split; [exact Hfine|].
  exact Hfine0.
Defined.

(** ** Who gets through the decorators *)

Lemma role_required_denied (roles : list string)
    (view : Z * User.t -> View) (request : Request) (db : DB)
    (me : Z * User.t) :
  request_user db request = Some me ->
  match Utils.get_user_role (snd me) with
  | Some role => role ∉ roles
  | None => True
  end ->
  Utils.role_required roles view request db
  = Views.responds (Redirect "dashboard") [(ERROR, NoPagePermission)] db.
Proof.
  intros Hme Hrole.
  unfold Utils.role_required, Utils.login_required. rewrite Hme.
  unfold Utils.get_user_role in Hrole.
  destruct (User.profile (snd me)); [|done].
  by rewrite bool_decide_eq_false_2.
Qed.

Lemma role_required_allowed (roles : list string)
    (view : Z * User.t -> View) (request : Request) (db : DB)
    (me : Z * User.t) (role : string) :
  request_user db request = Some me ->
  Utils.get_user_role (snd me) = Some role ->
  role ∈ roles ->
  Utils.role_required roles view request db = view me request db.
Proof.
  intros Hme Hrole Hin.
  unfold Utils.role_required, Utils.login_required. rewrite Hme.
  unfold Utils.get_user_role in Hrole.
  destruct (User.profile (snd me)); [|done]. simplify_eq.
  by rewrite bool_decide_eq_true_2.
Qed.

(** X2. The views for librarians are closed to everyone else. A request
    from a visitor who is not logged in is sent to the login page, and one
    from a user who is no librarian or administrator (a student, or a user
    without a profile) is sent to the dashboard with 'You do not have
    permission to access this page.'; in both cases [issue_create],
    [issue_return] and [fine_pay] write nothing. *)
Theorem X2_librarian_views_are_closed_to_others (clk : Clock)
    (issue_id fine_id : nat) (request : Request) (db : DB) :
  (forall me, request_user db request = Some me ->
              Utils.is_librarian (snd me) = false) ->
  let refusal :=
    match request_user db request with
    | None => Views.responds (Redirect "login") [] db
    | Some _ =>
        Views.responds (Redirect "dashboard") [(ERROR, NoPagePermission)] db
    end in
  Views.issue_create clk request db = refusal /\
  Views.issue_return clk issue_id request db = refusal /\
  Views.fine_pay clk fine_id request db = refusal.
Proof.
  intros Hnot refusal.
  assert (Hany : forall view,
            Utils.librarian_required view request db = refusal).
  { intros view. subst refusal.
    destruct (request_user db request) as [me|] eqn:Hme.
    - apply (role_required_denied _ _ _ _ me Hme).
      specialize (Hnot me eq_refl). unfold Utils.is_librarian in Hnot.
      destruct (Utils.get_user_role (snd me)); [|done].
      by apply bool_decide_eq_false in Hnot.
    - unfold Utils.librarian_required, Utils.role_required,
        Utils.login_required. by rewrite Hme. }
  repeat split; apply Hany.
Qed.

Lemma X2_librarian_views_are_closed_to_others_witness :
  let request := Sample.post 2 (IntVal 7) (IntVal 2) in
  let refusal :=
    Views.responds (Redirect "dashboard") [(ERROR, NoPagePermission)]
                   Sample.ledger in
  Views.issue_create Sample.late request Sample.ledger = refusal /\
  Views.issue_return Sample.late 0 request Sample.ledger = refusal /\
  Views.fine_pay Sample.late 0 request Sample.ledger = refusal.
Proof.
  apply (X2_librarian_views_are_closed_to_others Sample.late 0 0
           (Sample.post 2 (IntVal 7) (IntVal 2)) Sample.ledger).
  intros me Hme. injection Hme as <-. reflexivity.
Defined.

(** X3. The three role decorators sort the logged-in users. An
    administrator passes [admin_required] and [librarian_required]; a
    librarian or administrator is refused by [student_required]; a student
    passes [student_required] and is refused by the other two. *)
Theorem X3_role_decorators_sort_users (view : Z * User.t -> View)
    (request : Request) (db : DB) (me : Z * User.t) :
  request_user db request = Some me ->
  let refusal :=
    Views.responds (Redirect "dashboard") [(ERROR, NoPagePermission)] db in
  (Utils.is_admin (snd me) = true ->
     Utils.admin_required view request db = view me request db /\
     Utils.librarian_required view request db = view me request db) /\
  (Utils.is_librarian (snd me) = true ->
     Utils.librarian_required view request db = view me request db /\
     Utils.student_required view request db = refusal) /\
  (Utils.is_student (snd me) = true ->
     Utils.student_required view request db = view me request db /\
     Utils.librarian_required view request db = refusal /\
     Utils.admin_required view request db = refusal).
Proof.
  intros Hme refusal. unfold Utils.is_admin, Utils.is_student,
    Utils.is_librarian.
  split; [|split].
  - intros Hrole%bool_decide_eq_true_1. split.
    + apply (role_required_allowed _ _ _ _ me "ADMIN"); [done..|].
      rewrite !elem_of_cons; auto.
    + apply (role_required_allowed _ _ _ _ me "ADMIN"); [done..|].
      rewrite !elem_of_cons; auto.
  - destruct (Utils.get_user_role (snd me)) as [role|] eqn:Hrole; [|done].
    intros Hin%bool_decide_eq_true_1. split.
    + by apply (role_required_allowed _ _ _ _ me role).
    + apply (role_required_denied _ _ _ _ me Hme). rewrite Hrole.
      revert Hin. rewrite !elem_of_cons, !elem_of_nil.
      intros [->|[->|[]]] [|[]]; discriminate.
  - intros Hrole%bool_decide_eq_true_1. split; [|split].
    + apply (role_required_allowed _ _ _ _ me "STUDENT"); [done..|].
      rewrite !elem_of_cons; auto.
    + apply (role_required_denied _ _ _ _ me Hme). rewrite Hrole.
      rewrite !elem_of_cons, !elem_of_nil. intros [|[|[]]]; discriminate.
    + apply (role_required_denied _ _ _ _ me Hme). rewrite Hrole.
      rewrite !elem_of_cons, !elem_of_nil. intros [|[]]; discriminate.
Qed.

Lemma X3_role_decorators_sort_users_witness :
  let request := Sample.post 2 Missing Missing in
  let view := Views.issue_renew_body 0 in
  let refusal :=
    Views.responds (Redirect "dashboard") [(ERROR, NoPagePermission)]
                   Sample.shelf in
  Utils.student_required view request Sample.shelf
    = view (2, Sample.student) request Sample.shelf /\
  Utils.librarian_required view request Sample.shelf = refusal /\
  Utils.admin_required view request Sample.shelf = refusal.
Proof.
  pose proof (X3_role_decorators_sort_users (Views.issue_renew_body 0)
                (Sample.post 2 Missing Missing) Sample.shelf
                (2, Sample.student) eq_refl) as (_ & _ & Hstudent).
  exact (Hstudent eq_refl).
Defined.

(** ** What no view does *)

(** Every way through the four views. *)
Ltac open_views :=
  unfold serve, Views.issue_create, Views.issue_return, Views.issue_renew,
    Views.fine_pay, Utils.librarian_required, Utils.role_required,
    Utils.login_required, Views.issue_create_body, Views.issue_return_body,
    Views.issue_renew_body, Views.fine_pay_body, Views.objects_get,
    Views.int_or, Datetime.timedelta, Datetime.date_add;
  repeat case_match; simplify_eq; simpl in *.

Lemma lookup_insert_field {A B} (f : A -> B) (m : gmap Z A) (k b : Z)
    (old new : A) :
  m !! k = Some old -> f new = f old ->
  (f <$> <[k := new]> m !! b) = (f <$> m !! b).
Proof.
  intros Hold Hf. destruct (decide (k = b)) as [->|Hne].
  - rewrite lookup_insert_eq, Hold. simpl. by rewrite Hf.
  - by rewrite lookup_insert_ne.
Qed.

(** X4. No view adds, removes or renames a book, changes its
    [total_quantity], or touches the users: of the catalogue and the
    accounts, the only thing the four views ever write is a book's
    [available_quantity]. *)
Theorem X4_catalogue_is_fixed (c : Call) (request : Request) (db : DB)
    (b : Z) :
  let db' := store (serve c request db) in
  users db' = users db /\
  (Book.title <$> books db' !! b) = (Book.title <$> books db !! b) /\
  (Book.total_quantity <$> books db' !! b)
    = (Book.total_quantity <$> books db !! b).
Proof.
  destruct c; open_views; repeat split; try done;
    by eapply lookup_insert_field.
Qed.

Lemma list_insert_related {A} (R : A -> A -> Prop) (l : list A) (k j : nat)
    (old new x : A) :
  l !! k = Some old -> R old new -> R x x -> l !! j = Some x ->
  exists x', <[k := new]> l !! j = Some x' /\ R x x'.
Proof.
  intros Hold Hnew Hrefl Hx. destruct (decide (k = j)) as [->|Hne].
  - simplify_eq. exists new. split; [|done].
    apply list_lookup_insert_eq. by eapply lookup_lt_Some.
  - exists x. by rewrite list_lookup_insert_ne.
Qed.

(** X5. No view ever creates a fine or removes one: the fines table keeps
    its length under every request. The loan, the amount, the payment
    reference and the waiver fields of a fine are never written; its status
    either stays or becomes PAID. *)
Theorem X5_no_view_creates_a_fine (c : Call) (request : Request) (db : DB) :
  let db' := store (serve c request db) in
  length (fines db') = length (fines db) /\
  (forall (k : nat) (f : Fine.t), fines db !! k = Some f ->
     exists f', fines db' !! k = Some f' /\
       Fine.issue f' = Fine.issue f /\
       Fine.amount f' = Fine.amount f /\
       Fine.payment_reference f' = Fine.payment_reference f /\
       Fine.waived_by f' = Fine.waived_by f /\
       Fine.waive_reason f' = Fine.waive_reason f /\
       (Fine.status f' = Fine.status f \/ Fine.status f' = Fine.PAID)).
Proof.
  set (R := fun f f' : Fine.t =>
       Fine.issue f' = Fine.issue f /\
       Fine.amount f' = Fine.amount f /\
       Fine.payment_reference f' = Fine.payment_reference f /\
       Fine.waived_by f' = Fine.waived_by f /\
       Fine.waive_reason f' = Fine.waive_reason f /\
       (Fine.status f' = Fine.status f \/ Fine.status f' = Fine.PAID)).
  assert (Hrefl : forall f, R f f) by (intros f; unfold R; tauto).
  simpl. split.
  - destruct c; open_views; try done; by rewrite length_insert.
  - intros k f Hf. change (exists f', fines (store (serve c request db)) !! k
                                      = Some f' /\ R f f').
    destruct c; open_views; eauto.
    eapply list_insert_related; eauto. unfold R. simpl. tauto.
Qed.

(** X6. No view rewrites the facts of a loan. Whatever the request, every
    loan of the table is still there under its number, with the same book,
    borrower, issue date, issuing librarian and renewal limit; its due date
    and its renewal count can only have grown. *)
Theorem X6_loan_facts_are_kept (c : Call) (request : Request) (db : DB)
    (issue_id : nat) (i : Issue.t) :
  issues db !! issue_id = Some i ->
  exists i', issues (store (serve c request db)) !! issue_id = Some i' /\
    Issue.book i' = Issue.book i /\
    Issue.user i' = Issue.user i /\
    Issue.issue_date i' = Issue.issue_date i /\
    Issue.issued_by i' = Issue.issued_by i /\
    Issue.max_renewals i' = Issue.max_renewals i /\
    Issue.due_date i <= Issue.due_date i' /\
    Issue.renewal_count i <= Issue.renewal_count i'.
Proof.
  set (R := fun i i' : Issue.t =>
       Issue.book i' = Issue.book i /\
       Issue.user i' = Issue.user i /\
       Issue.issue_date i' = Issue.issue_date i /\
       Issue.issued_by i' = Issue.issued_by i /\
       Issue.max_renewals i' = Issue.max_renewals i /\
       Issue.due_date i <= Issue.due_date i' /\
       Issue.renewal_count i <= Issue.renewal_count i').
  assert (Hrefl : forall x, R x x) by (intros x; unfold R; repeat split; lia).
  intros Hi. change (exists i', issues (store (serve c request db)) !! issue_id
                                = Some i' /\ R i i').
  destruct c; open_views; eauto;
    try (exists i; split; [by apply lookup_app_l_Some | done]);
    (eapply list_insert_related; eauto; unfold R; simpl;
     repeat split; lia).
Qed.

Lemma X6_loan_facts_are_kept_witness :
  exists i',
    issues (store (serve (IssueRenew 0) (Sample.post 1 Missing Missing)
                         Sample.shelf)) !! 0%nat = Some i' /\
    Issue.book i' = Issue.book Sample.loan /\
    Issue.user i' = Issue.user Sample.loan /\
    Issue.issue_date i' = Issue.issue_date Sample.loan /\
    Issue.issued_by i' = Issue.issued_by Sample.loan /\
    Issue.max_renewals i' = Issue.max_renewals Sample.loan /\
    Issue.due_date Sample.loan <= Issue.due_date i' /\
    Issue.renewal_count Sample.loan <= Issue.renewal_count i'.
Proof.
  apply (X6_loan_facts_are_kept (IssueRenew 0)
           (Sample.post 1 Missing Missing) Sample.shelf 0 Sample.loan).
  reflexivity.
Defined.

(** X7. A returned loan is frozen. Once [return_date] is set, no request
    to any of the four views, about this loan or another, changes any field
    of the loan. *)
Theorem X7_returned_loans_are_frozen (c : Call) (request : Request)
    (db : DB) (issue_id : nat) (i : Issue.t) :
  issues db !! issue_id = Some i ->
  is_Some (Issue.return_date i) ->
  issues (store (serve c request db)) !! issue_id = Some i.
Proof.
  intros Hi [d Hd].
  destruct c; open_views; try done;
    try (by apply lookup_app_l_Some);
    match goal with
    | |- <[?k := _]> _ !! _ = _ =>
        destruct (decide (k = issue_id)) as [->|Hne];
        [congruence | by rewrite list_lookup_insert_ne]
    end.
Qed.

Lemma X7_returned_loans_are_frozen_witness :
  issues (store (serve (IssueRenew 0) (Sample.post 1 Missing Missing)
                       Sample.ledger)) !! 0%nat
  = Some (Issue.set_return_date (Some 738019) Sample.loan).
Proof.
  apply (X7_returned_loans_are_frozen (IssueRenew 0)
           (Sample.post 1 Missing Missing) Sample.ledger 0
           (Issue.set_return_date (Some 738019) Sample.loan)).
  - reflexivity.
  - simpl. eauto.
Defined.

(** X8. A request about one loan leaves the others alone: returning or
    renewing loan [n] changes no loan with another number, and issuing a
    book or paying a fine changes no existing loan at all. *)
Theorem X8_other_loans_are_untouched (c : Call) (request : Request)
    (db : DB) (issue_id : nat) (i : Issue.t) :
  issues db !! issue_id = Some i ->
  match c with
  | IssueReturn _ n | IssueRenew n => n <> issue_id
  | IssueCreate _ | FinePay _ _ => True
  end ->
  issues (store (serve c request db)) !! issue_id = Some i.
Proof.
  intros Hi Hother.
  destruct c; open_views; try done;
    try (by apply lookup_app_l_Some);
    by rewrite list_lookup_insert_ne.
Qed.

Lemma X8_other_loans_are_untouched_witness :
  issues (store (serve (IssueCreate Sample.on_time)
                       (Sample.post 1 (IntVal 7) (IntVal 1))
                       Sample.shelf)) !! 0%nat
  = Some Sample.loan.
Proof.
  apply (X8_other_loans_are_untouched (IssueCreate Sample.on_time)
           (Sample.post 1 (IntVal 7) (IntVal 1)) Sample.shelf 0 Sample.loan).
  - reflexivity.
  - exact I.
Defined.

(** ** Invariants of the whole application *)

Lemma serve_keeps_renewal_limit (c : Call) (request : Request) (db : DB) :
  Forall (fun i => 0 <= Issue.renewal_count i <= Issue.max_renewals i)
         (issues db) ->
  Forall (fun i => 0 <= Issue.renewal_count i <= Issue.max_renewals i)
         (issues (store (serve c request db))).
Proof.
  intros Hall.
  assert (Hrow : forall k i, issues db !! k = Some i ->
            0 <= Issue.renewal_count i <= Issue.max_renewals i)
    by (intros k i Hk; by eapply (Forall_lookup_1 _ _ _ _ Hall)).
  destruct c; open_views; try done;
    first
      [ apply Forall_app; split; [done|]; by repeat constructor
      | apply Forall_insert; [done|]; simpl;
        match goal with H : issues db !! _ = Some _ |- _ =>
          pose proof (Hrow _ _ H) end; lia ].
Qed.

(** X9. The renewal count of a loan never passes its limit. If every loan
    starts with [0 <= renewal_count <= max_renewals], then so does every
    loan, the new ones included, after any sequence of requests to the four
    views, whoever sends them. *)
Theorem X9_renewal_count_stays_within_limit
    (calls : list (Call * Request)) (db : DB) :
  Forall (fun i => 0 <= Issue.renewal_count i <= Issue.max_renewals i)
         (issues db) ->
  Forall (fun i => 0 <= Issue.renewal_count i <= Issue.max_renewals i)
         (issues (foldl (fun db cr => store (serve (fst cr) (snd cr) db))
                        db calls)).
Proof.
  revert db. induction calls as [|[c request] calls IH]; intros db Hall;
    [done|].
  simpl. apply IH. by apply serve_keeps_renewal_limit.
Qed.

Lemma X9_renewal_count_stays_within_limit_witness :
  let staff := Sample.post 1 (IntVal 7) (IntVal 1) in
  Forall (fun i => 0 <= Issue.renewal_count i <= Issue.max_renewals i)
    (issues (foldl (fun db cr => store (serve (fst cr) (snd cr) db))
               Sample.shelf
               [(IssueRenew 0, staff); (IssueRenew 0, staff);
                (IssueRenew 0, staff); (IssueCreate Sample.late, staff);
                (IssueRenew 1, staff)])).
Proof.
  apply (X9_renewal_count_stays_within_limit
           [(IssueRenew 0, Sample.post 1 (IntVal 7) (IntVal 1));
            (IssueRenew 0, Sample.post 1 (IntVal 7) (IntVal 1));
            (IssueRenew 0, Sample.post 1 (IntVal 7) (IntVal 1));
            (IssueCreate Sample.late, Sample.post 1 (IntVal 7) (IntVal 1));
            (IssueRenew 1, Sample.post 1 (IntVal 7) (IntVal 1))]
           Sample.shelf).
  repeat constructor; vm_compute; discriminate.
Defined.

Lemma serve_keeps_paired (c : Call) (request : Request) (db : DB) :
  paired db -> paired (store (serve c request db)).
Proof.
  intros Hp. destruct c as [clk|clk issue_id|issue_id|clk fine_id].
  - by apply issue_create_keeps_paired.
  - by apply issue_return_keeps_paired.
  - simpl. intros b bk.
    assert (Hsame : books (store (Views.issue_renew issue_id request db))
                    = books db /\
                    active_loans b
                      (issues (store (Views.issue_renew issue_id request db)))
                    = active_loans b (issues db)).
    { open_views; try done; (split; [done|]);
        (erewrite active_loans_insert by done);
        unfold on_loan; simpl; lia. }
    destruct Hsame as [-> ->]. apply Hp.
  - simpl. intros b bk.
    assert (Hsame : books (store (Views.fine_pay clk fine_id request db))
                    = books db /\
                    issues (store (Views.fine_pay clk fine_id request db))
                    = issues db)
      by (open_views; done).
    destruct Hsame as [-> ->]. apply Hp.
Qed.

(** X10. The shelf count stays in bounds under the whole application.
    From a database in which every book has a count that is not negative
    and, with its open loans, within its stock, any interleaving of issue,
    return, renew and payment requests leaves
    [0 <= available_quantity <= total_quantity] for every book; renewals
    and payments do not move the counts at all. *)
Theorem X10_counts_stay_in_bounds_under_all_views
    (calls : list (Call * Request)) (db : DB) :
  paired db ->
  within_bounds
    (foldl (fun db cr => store (serve (fst cr) (snd cr) db)) db calls) /\
  (forall issue_id clk fine_id request db0,
     books (store (Views.issue_renew issue_id request db0)) = books db0 /\
     books (store (Views.fine_pay clk fine_id request db0)) = books db0).
Proof.
  intros Hp. split.
  - apply paired_within_bounds. revert db Hp.
    induction calls as [|[c request] calls IH]; intros db Hp; [done|].
    simpl. apply IH. by apply serve_keeps_paired.
  - intros issue_id clk fine_id request db0. split; open_views; done.
Qed.

Lemma X10_counts_stay_in_bounds_under_all_views_witness :
  let staff := Sample.post 1 (IntVal 7) (IntVal 1) in
  let calls := [(IssueCreate Sample.on_time, staff); (IssueRenew 1, staff);
                (IssueReturn Sample.late 0, staff);
                (FinePay Sample.late 0, staff);
                (IssueReturn Sample.late 1, staff);
                (IssueReturn Sample.late 1, staff)] in
  let db' := foldl (fun db cr => store (serve (fst cr) (snd cr) db))
                   Sample.shelf calls in
  (Book.available_quantity <$> books db' !! 7) = Some 2 /\
  within_bounds db'.
Proof.
  assert (Hp : paired Sample.shelf).
  { intros b bk. unfold Sample.shelf. simpl.
    destruct (decide (b = 7)) as [->|Hne].
    - rewrite lookup_insert_eq. intros [= <-]. vm_compute.
      split; discriminate.
    - rewrite lookup_insert_ne, lookup_empty by done. discriminate. }
  split; [reflexivity|].
  exact (proj1 (X10_counts_stay_in_bounds_under_all_views
           [(IssueCreate Sample.on_time, Sample.post 1 (IntVal 7) (IntVal 1));
            (IssueRenew 1, Sample.post 1 (IntVal 7) (IntVal 1));
            (IssueReturn Sample.late 0, Sample.post 1 (IntVal 7) (IntVal 1));
            (FinePay Sample.late 0, Sample.post 1 (IntVal 7) (IntVal 1));
            (IssueReturn Sample.late 1, Sample.post 1 (IntVal 7) (IntVal 1));
            (IssueReturn Sample.late 1, Sample.post 1 (IntVal 7) (IntVal 1))]
           Sample.shelf Hp)).
Defined.

(** ** The audit trail *)

(** X11. No answered request writes without a trace. When a view returns
    a response, either it has changed nothing at all, or it has added
    exactly one audit entry, which names the requester, the action of the
    view and the record concerned: the new loan for an issue, the loan for
    a return or a renewal, the fine for a payment. *)
Theorem X11_every_write_is_audited (c : Call) (request : Request)
    (db : DB) :
  let r := serve c request db in
  (exists response, outcome r = Returns response) ->
  store r = db \/
  exists me,
    request_user db request = Some me /\
    audit_logs (store r) =
      audit_logs db ++
        [ {| AuditLog.user := Some (fst me);
             AuditLog.action :=
               match c with
               | IssueCreate _ => "ISSUE"
               | IssueReturn _ _ => "RETURN"
               | IssueRenew _ => "RENEW"
               | FinePay _ _ => "PAYMENT"
               end;
             AuditLog.model_name :=
               match c with
               | FinePay _ _ => "Fine"
               | _ => "Issue"
               end;
             AuditLog.object_id :=
               match c with
               | IssueCreate _ => Some (length (issues db))
               | IssueReturn _ n | IssueRenew n | FinePay _ n => Some n
               end |} ].
Proof.
  simpl. destruct c; open_views; intros [response Hr]; simplify_eq;
    try (by left); right; eauto.
Qed.

Lemma X11_every_write_is_audited_witness :
  let request := Sample.pay 1 None in
  let r := serve (FinePay Sample.later 0) request Sample.ledger in
  store r = Sample.ledger \/
  exists me,
    request_user Sample.ledger request = Some me /\
    audit_logs (store r) =
      audit_logs Sample.ledger ++
        [ {| AuditLog.user := Some (fst me);
             AuditLog.action := "PAYMENT";
             AuditLog.model_name := "Fine";
             AuditLog.object_id := Some 0%nat |} ].
Proof.
  apply (X11_every_write_is_audited (FinePay Sample.later 0)
           (Sample.pay 1 None) Sample.ledger).
  eexists. reflexivity.
Defined.

(** X12. Notifications come from completed issues only. An issue that
    completes sends the borrower exactly one GENERAL notification titled
    'Book Issued'; every other request to the four views, refused or not,
    sends none. *)
Theorem X12_only_a_completed_issue_notifies (c : Call) (request : Request)
    (db : DB) :
  let r := serve c request db in
  match c with
  | IssueCreate _ =>
      if issued r then
        exists user_id,
          POST_user_id request = IntVal user_id /\
          notifications (store r) =
            notifications db ++
              [ {| Notification.user := user_id;
                   Notification.notification_type := "GENERAL";
                   Notification.title := "Book Issued" |} ]
      else notifications (store r) = notifications db
  | _ => notifications (store r) = notifications db
  end.
Proof.
  simpl. destruct c; open_views; eauto.
Qed.

(** ** Returning *)

Lemma issue_return_completes (clk : Clock) (issue_id : nat)
    (request : Request) (db : DB) (me : Z * User.t) (i : Issue.t)
    (bk : Book.t) :
  request_user db request = Some me ->
  Utils.is_librarian (snd me) = true ->
  issues db !! issue_id = Some i ->
  Issue.return_date i = None ->
  books db !! Issue.book i = Some bk ->
  Views.issue_return clk issue_id request db =
    Views.responds (Redirect "issue_list") [(SUCCESS, ReturnedSuccessfully)]
      (Utils.log_audit (Some (fst me)) "RETURN" "Issue" (Some issue_id)
         (set_books
            (<[Issue.book i :=
                 Book.set_available_quantity
                   (Book.available_quantity bk + 1) bk]> (books db))
            (set_issues
               (<[issue_id :=
                    Issue.set_returned_to (Some (fst me))
                      (Issue.set_return_date (Some (date_today clk)) i)]>
                  (issues db)) db))).
Proof.
  intros Hme Hstaff Hi Hopen Hbk.
  unfold Views.issue_return. rewrite (staff_passes _ _ _ _ Hme Hstaff).
  unfold Views.issue_return_body. rewrite Hi, Hopen. simpl.
  by rewrite Hbk.
Qed.

(** X13. What a return does. When a librarian or administrator returns a
    loan that is still out, of a book whose [available_quantity] lies in
    the range of an integer column and below its top, the loan gets today's
    date as return date and the requester as [returned_to], the book's
    [available_quantity] goes up by 1, one RETURN entry is logged, and the
    answer is 'Book returned successfully!' however late the book is; no
    other record changes and no fine is written. *)
Theorem X13_what_a_return_does (clk : Clock) (issue_id : nat)
    (request : Request) (db : DB) (me : Z * User.t) (i : Issue.t)
    (bk : Book.t) :
  request_user db request = Some me ->
  Utils.is_librarian (snd me) = true ->
  issues db !! issue_id = Some i ->
  Issue.return_date i = None ->
  books db !! Issue.book i = Some bk ->
  IntegerField_min <= Book.available_quantity bk < IntegerField_max ->
  Views.issue_return clk issue_id request db =
    {| outcome := Returns (Redirect "issue_list");
       flashed := [(SUCCESS, ReturnedSuccessfully)];
       store :=
         {| users := users db;
            books :=
              <[Issue.book i :=
                  {| Book.title := Book.title bk;
                     Book.total_quantity := Book.total_quantity bk;
                     Book.available_quantity :=
                       Book.available_quantity bk + 1 |}]> (books db);
            issues :=
              <[issue_id :=
                  {| Issue.book := Issue.book i;
                     Issue.user := Issue.user i;
                     Issue.issue_date := Issue.issue_date i;
                     Issue.due_date := Issue.due_date i;
                     Issue.return_date := Some (date_today clk);
                     Issue.renewal_count := Issue.renewal_count i;
                     Issue.max_renewals := Issue.max_renewals i;
                     Issue.issued_by := Issue.issued_by i;
                     Issue.returned_to := Some (fst me) |}]> (issues db);
            fines := fines db;
            notifications := notifications db;
            audit_logs :=
              audit_logs db ++
                [ {| AuditLog.user := Some (fst me);
                     AuditLog.action := "RETURN";
                     AuditLog.model_name := "Issue";
                     AuditLog.object_id := Some issue_id |} ] |} |}.
Proof.
  intros Hme Hstaff Hi Hopen Hbk _.
  by rewrite (issue_return_completes clk issue_id request db me i bk).
Qed.

Lemma X13_what_a_return_does_witness :
  let r := Views.issue_return Sample.late 0 (Sample.post 1 Missing Missing)
             Sample.shelf in
  IntegerField_min <= Book.available_quantity Sample.novel
    < IntegerField_max /\
  flashed r = [(SUCCESS, ReturnedSuccessfully)] /\
  (Book.available_quantity <$> books (store r) !! 7) = Some 2 /\
  (Issue.return_date <$> issues (store r) !! 0%nat) = Some (Some 738019) /\
  (Issue.returned_to <$> issues (store r) !! 0%nat) = Some (Some 1) /\
  fines (store r) = [].
Proof.
  assert (Hrange : IntegerField_min <= Book.available_quantity Sample.novel
                   < IntegerField_max)
    by (vm_compute; split; [discriminate | reflexivity]).
  split; [exact Hrange|].
  rewrite (X13_what_a_return_does Sample.late 0
             (Sample.post 1 Missing Missing) Sample.shelf
             (1, Sample.librarian) Sample.loan Sample.novel
             eq_refl eq_refl eq_refl eq_refl eq_refl Hrange).
  repeat split.
Defined.

Lemma set_available_back (bk : Book.t) :
  Book.set_available_quantity (Book.available_quantity bk - 1 + 1)
    (Book.set_available_quantity (Book.available_quantity bk - 1) bk) = bk.
Proof.
  destruct bk. unfold Book.set_available_quantity. simpl. f_equal. lia.
Qed.

(** X14. Issue, then return, and the shelf is as before. After an issue
    that completes, a librarian's return of the loan just created succeeds
    and brings the whole books table, the count of the issued book
    included, back to what it was before the issue. *)
Theorem X14_issue_then_return_restores_the_shelf (clk clk' : Clock)
    (request request' : Request) (db : DB) (me' : Z * User.t) :
  issued (Views.issue_create clk request db) = true ->
  request_user db request' = Some me' ->
  Utils.is_librarian (snd me') = true ->
  let db1 := store (Views.issue_create clk request db) in
  let r := Views.issue_return clk' (length (issues db)) request' db1 in
  returned r = true /\
  books (store r) = books db /\
  length (issues (store r)) = S (length (issues db)).
Proof.
  intros Hok Hme' Hstaff' db1 r.
  destruct (issue_create_inversion clk request db Hok)
    as (me & book_id & bk & user_id & usr & days & _ & _ & _ & _ & Hbk &
        _ & _ & _ & _ & _ & Heq).
  subst r db1. rewrite Heq. simpl.
  erewrite (issue_return_completes clk' (length (issues db)) request' _ me'
              _ (Book.set_available_quantity
                   (Book.available_quantity bk - 1) bk));
    [|done|done|by apply list_lookup_middle|done
     |simpl; by rewrite lookup_insert_eq].
  simpl. split; [done|]. split.
  - rewrite set_available_back, insert_insert_eq. by apply insert_id.
  - rewrite length_insert, length_app. simpl. lia.
Qed.

Lemma X14_issue_then_return_restores_the_shelf_witness :
  let request := Sample.post 1 (IntVal 7) (IntVal 1) in
  let db1 := store (Views.issue_create Sample.on_time request Sample.shelf) in
  let r := Views.issue_return Sample.late 1 request db1 in
  returned r = true /\
  books (store r) = books Sample.shelf /\
  length (issues (store r)) = 2%nat.
Proof.
  apply (X14_issue_then_return_restores_the_shelf Sample.on_time Sample.late
           (Sample.post 1 (IntVal 7) (IntVal 1))
           (Sample.post 1 (IntVal 7) (IntVal 1)) Sample.shelf
           (1, Sample.librarian)); reflexivity.
Defined.

(** ** More on issuing *)

(** X15. A well-formed issue request completes exactly when the book is
    available. For a POST by a librarian or administrator that names an
    existing book and an existing borrower, with a loan period that keeps
    the due date inside the calendar, the issue completes if and only if
    [Book.is_available] holds, that is, [available_quantity > 0]. *)
Theorem X15_issue_completes_iff_available (clk : Clock) (request : Request)
    (db : DB) (me : Z * User.t) (book_id user_id days : Z) (bk : Book.t)
    (usr : User.t) :
  request_user db request = Some me ->
  Utils.is_librarian (snd me) = true ->
  method request = "POST" ->
  POST_book_id request = IntVal book_id ->
  books db !! book_id = Some bk ->
  POST_user_id request = IntVal user_id ->
  users db !! user_id = Some usr ->
  Views.int_or 14 (POST_days request) = inr days ->
  0 < date_today clk + days <= Datetime.MAXORDINAL ->
  Z.abs days <= Datetime.MAX_DELTA_DAYS ->
  issued (Views.issue_create clk request db) = Book.is_available bk.
Proof.
  intros Hme Hstaff Hpost Hb Hbk Hu Husr Hdays Hrange Hdelta.
  unfold Book.is_available.
  destruct (Z.ltb_spec 0 (Book.available_quantity bk)) as [Havail|Hnone].
  - by eapply issue_create_succeeds.
  - unfold Views.issue_create. rewrite (staff_passes _ _ _ _ Hme Hstaff).
    unfold Views.issue_create_body, Views.objects_get.
    rewrite Hpost, Hdays, Hb, Hbk, Hu, Husr. simpl.
    destruct (Z.leb_spec (Book.available_quantity bk) 0); [done|lia].
Qed.

Lemma X15_issue_completes_iff_available_witness :
  issued (Views.issue_create Sample.on_time
            (Sample.post 1 (IntVal 7) (IntVal 2)) Sample.shelf)
  = Book.is_available Sample.novel.
Proof.
  apply (X15_issue_completes_iff_available Sample.on_time
           (Sample.post 1 (IntVal 7) (IntVal 2)) Sample.shelf
           (1, Sample.librarian) 7 2 14 Sample.novel Sample.student);
    try reflexivity.
  - split; [reflexivity|]. vm_compute. discriminate.
  - vm_compute. discriminate.
Defined.

(** X16. The form would refuse what the view has just done. After an
    issue that completes, [IssueBookForm.clean] run on the same book and
    borrower raises a validation error: 'This book is not available' when
    the issue took the last copy, and otherwise '... already has this book
    issued', because the borrower now has an open loan of the book. *)
Theorem X16_form_refuses_the_pair_after_an_issue (clk : Clock)
    (request : Request) (db : DB) :
  issued (Views.issue_create clk request db) = true ->
  let db' := store (Views.issue_create clk request db) in
  exists book_id bk' user_id usr,
    POST_book_id request = IntVal book_id /\
    POST_user_id request = IntVal user_id /\
    books db' !! book_id = Some bk' /\
    users db' !! user_id = Some usr /\
    Forms.has_active_issue db' user_id book_id = true /\
    Forms.IssueBookForm_clean db' (Some (book_id, bk'))
                              (Some (user_id, usr))
    = inl (if Book.available_quantity bk' <=? 0 then Forms.NotAvailable
           else Forms.AlreadyIssued (User.username usr)).
Proof.
  intros Hok db'.
  destruct (issue_create_inversion clk request db Hok)
    as (me & book_id & bk & user_id & usr & days & _ & _ & _ & Hb & Hbk &
        _ & Hu & Husr & _ & _ & Heq).
  subst db'. rewrite Heq. simpl.
  exists book_id,
    (Book.set_available_quantity (Book.available_quantity bk - 1) bk),
    user_id, usr.
  assert (Hactive :
    Forms.has_active_issue
      {| users := users db;
         books :=
           <[book_id := Book.set_available_quantity
                          (Book.available_quantity bk - 1) bk]> (books db);
         issues :=
           issues db ++
             [Issue.create book_id user_id (date_today clk)
                           (date_today clk + days) (Some (fst me))];
         fines := fines db;
         notifications :=
           notifications db ++
             [ {| Notification.user := user_id;
                  Notification.notification_type := "GENERAL";
                  Notification.title := "Book Issued" |} ];
         audit_logs :=
           audit_logs db ++
             [ {| AuditLog.user := Some (fst me);
                  AuditLog.action := "ISSUE";
                  AuditLog.model_name := "Issue";
                  AuditLog.object_id := Some (length (issues db)) |} ] |}
      user_id book_id = true).
  { unfold Forms.has_active_issue. simpl. rewrite existsb_app. simpl.
    rewrite !Z.eqb_refl. simpl. apply orb_true_r. }
  repeat split; try done.
  - by rewrite lookup_insert_eq.
  - unfold Forms.IssueBookForm_clean. rewrite Hactive.
    by destruct (Book.available_quantity _ <=? 0).
Qed.

Lemma X16_form_refuses_the_pair_after_an_issue_witness :
  let request := Sample.post 1 (IntVal 7) (IntVal 1) in
  let db' := store (Views.issue_create Sample.on_time request Sample.shelf) in
  exists book_id bk' user_id usr,
    POST_book_id request = IntVal book_id /\
    POST_user_id request = IntVal user_id /\
    books db' !! book_id = Some bk' /\
    users db' !! user_id = Some usr /\
    Forms.has_active_issue db' user_id book_id = true /\
    Forms.IssueBookForm_clean db' (Some (book_id, bk'))
                              (Some (user_id, usr))
    = inl (if Book.available_quantity bk' <=? 0 then Forms.NotAvailable
           else Forms.AlreadyIssued (User.username usr)).
Proof.
  apply (X16_form_refuses_the_pair_after_an_issue Sample.on_time
           (Sample.post 1 (IntVal 7) (IntVal 1)) Sample.shelf).
  reflexivity.
Defined.

(** X17. The loan period is not checked. A well-formed issue request with
    a negative number of days completes like any other, and the loan it
    creates is due before its own issue date: it is overdue on the day it
    is made (for a clock whose two readings agree). *)
Theorem X17_negative_period_is_accepted (clk : Clock) (request : Request)
    (db : DB) (me : Z * User.t) (book_id user_id days : Z) (bk : Book.t)
    (usr : User.t) :
  request_user db request = Some me ->
  Utils.is_librarian (snd me) = true ->
  method request = "POST" ->
  POST_book_id request = IntVal book_id ->
  books db !! book_id = Some bk ->
  0 < Book.available_quantity bk ->
  POST_user_id request = IntVal user_id ->
  users db !! user_id = Some usr ->
  POST_days request = IntVal days ->
  days < 0 ->
  0 < date_today clk + days ->
  date_today clk <= Datetime.MAXORDINAL ->
  - Datetime.MAX_DELTA_DAYS <= days ->
  let r := Views.issue_create clk request db in
  issued r = true /\
  exists loan,
    issues (store r) = issues db ++ [loan] /\
    Issue.return_date loan = None /\
    Issue.due_date loan = Issue.issue_date loan + days /\
    Issue.due_date loan < Issue.issue_date loan /\
    (timezone_now_date clk = date_today clk ->
     Issue.is_overdue clk loan = true /\
     Issue.calculate_fine clk loan = 10 * - days).
Proof.
  intros Hme Hstaff Hpost Hb Hbk Havail Hu Husr Hdays Hneg Hlo Hhi Hdelta r.
  assert (Hok : issued r = true).
  { apply (issue_create_succeeds clk request db me book_id user_id days bk
             usr); try done; try (by rewrite Hdays); lia. }
  split; [done|].
  destruct (issue_create_inversion clk request db Hok)
    as (me0 & book_id0 & bk0 & user_id0 & usr0 & days0 & _ & _ & _ & _ & _ &
        _ & _ & _ & Hdays0 & _ & Heq).
  rewrite Hdays in Hdays0. simpl in Hdays0. simplify_eq.
  exists (Issue.create book_id0 user_id0 (date_today clk)
            (date_today clk + days0) (Some (fst me0))).
  subst r. rewrite Heq. simpl.
  split; [done|]. split; [done|]. split; [done|]. split; [lia|].
  intros Hclock.
  unfold Issue.calculate_fine, Issue.days_overdue, Issue.is_overdue,
    Datetime.days_between. simpl. rewrite Hclock.
  destruct (Z.ltb_spec (date_today clk + days0) (date_today clk));
    simpl; [split; [done|lia] | lia].
Qed.

Lemma X17_negative_period_is_accepted_witness :
  let request :=
    {| session_user := Some 1; method := "POST"; POST_book_id := IntVal 7;
       POST_user_id := IntVal 1; POST_days := IntVal (-3);
       POST_payment_method := None |} in
  let r := Views.issue_create Sample.on_time request Sample.shelf in
  issued r = true /\
  exists loan,
    issues (store r) = issues Sample.shelf ++ [loan] /\
    Issue.return_date loan = None /\
    Issue.due_date loan = Issue.issue_date loan + (-3) /\
    Issue.due_date loan < Issue.issue_date loan /\
    (timezone_now_date Sample.on_time = date_today Sample.on_time ->
     Issue.is_overdue Sample.on_time loan = true /\
     Issue.calculate_fine Sample.on_time loan = 10 * - (-3)).
Proof.
  apply (X17_negative_period_is_accepted Sample.on_time
           {| session_user := Some 1; method := "POST";
              POST_book_id := IntVal 7; POST_user_id := IntVal 1;
              POST_days := IntVal (-3); POST_payment_method := None |}
           Sample.shelf (1, Sample.librarian) 7 1 (-3) Sample.novel
           Sample.librarian); try reflexivity.
  - vm_compute. discriminate.
  - vm_compute. discriminate.
Defined.

(** ** Listings and counters *)

Lemma filter_length_le {A} (p q : A -> bool) (l : list A) :
  (forall x, p x = true -> q x = true) ->
  (length (List.filter p l) <= length (List.filter q l))%nat.
Proof.
  intros Hpq. induction l as [|x l IH]; simpl; [done|].
  destruct (p x) eqn:Hp.
  - rewrite (Hpq x Hp). simpl. lia.
  - destruct (q x); simpl; lia.
Qed.

Lemma filter_length_insert {A} (p : A -> bool) (l : list A) (k : nat)
    (old new : A) :
  l !! k = Some old ->
  (length (List.filter p (<[k := new]> l)) + (if p old then 1 else 0)
   = length (List.filter p l) + (if p new then 1 else 0))%nat.
Proof.
  intros Hold.
  assert (Hlen : (k < length l)%nat) by (by eapply lookup_lt_Some).
  rewrite insert_take_drop by done.
  rewrite <- (take_drop_middle l k old Hold) at 3.
  rewrite !List.filter_app, !length_app. simpl.
  destruct (p old), (p new); simpl; lia.
Qed.

(** X18. The overdue listings agree with the model, and the status filter
    of the issue list splits the loans. A loan is listed under 'active' or
    under 'returned', never both; what is listed under 'overdue' is listed
    under 'active' and is what the overdue report shows; for a clock whose
    two readings agree, that is exactly the loans whose [is_overdue] holds.
    Any other status, or none, lists every loan. *)
Theorem X18_issue_list_filters (clk : Clock) (i : Issue.t) :
  Listings.issue_list_selects clk (Some "active") i
    = negb (Listings.issue_list_selects clk (Some "returned") i) /\
  (Listings.issue_list_selects clk (Some "overdue") i = true ->
   Listings.issue_list_selects clk (Some "active") i = true) /\
  Listings.issue_list_selects clk (Some "overdue") i
    = Listings.report_overdue_selects clk i /\
  (date_today clk = timezone_now_date clk ->
   Listings.report_overdue_selects clk i = Issue.is_overdue clk i) /\
  (forall status : option string,
     status <> Some "active" -> status <> Some "returned" ->
     status <> Some "overdue" ->
     Listings.issue_list_selects clk status i = true).
Proof.
  unfold Listings.issue_list_selects, Listings.report_overdue_selects,
    Issue.is_overdue.
  split; [|split; [|split; [|split]]].
  - simpl. by destruct (bool_decide (Issue.return_date i = None)).
  - simpl. by intros [? _]%andb_true_iff.
  - done.
  - intros ->. destruct (Issue.return_date i); done.
  - intros status H1 H2 H3.
    by rewrite !bool_decide_eq_false_2.
Qed.

Lemma X18_issue_list_filters_witness :
  Listings.issue_list_selects Sample.late (Some "overdue") Sample.loan
    = true /\
  Listings.issue_list_selects Sample.late (Some "active") Sample.loan
    = true /\
  Listings.report_overdue_selects Sample.late Sample.loan
    = Issue.is_overdue Sample.late Sample.loan /\
  Listings.issue_list_selects Sample.late (Some "ACTIVE") Sample.loan
    = true.
Proof.
  pose proof (X18_issue_list_filters Sample.late Sample.loan)
    as (_ & Hactive & _ & Hmodel & Hother).
  split; [reflexivity|]. split; [exact (Hactive eq_refl)|].
  split; [exact (Hmodel eq_refl)|].
  apply Hother; discriminate.
Defined.

(** X19. The dashboard counters are ordered: the overdue loans are among
    the open loans, which are among all loans; a user's open loans are
    among the open loans, and a user's overdue loans among that user's open
    loans and among all overdue loans. *)
Theorem X19_dashboard_counters_are_ordered (clk : Clock) (me : Z)
    (db : DB) :
  (Listings.overdue_issues clk db <= Listings.active_issues db)%nat /\
  (Listings.active_issues db <= length (issues db))%nat /\
  (Listings.my_active_issues me db <= Listings.active_issues db)%nat /\
  (Listings.my_overdue clk me db <= Listings.my_active_issues me db)%nat /\
  (Listings.my_overdue clk me db <= Listings.overdue_issues clk db)%nat.
Proof.
  unfold Listings.overdue_issues, Listings.active_issues,
    Listings.my_active_issues, Listings.my_overdue,
    Listings.report_overdue_selects, Listings.my_issues_selects.
  repeat split.
  - apply filter_length_le. by intros x [? _]%andb_true_iff.
  - apply List.filter_length_le.
  - apply filter_length_le. by intros x [_ ?]%andb_true_iff.
  - apply List.filter_length_le.
  - induction (issues db) as [|x l IH]; simpl; [done|].
    destruct (Issue.user x =? me); simpl;
      destruct (bool_decide (Issue.return_date x = None)); simpl;
      destruct (Issue.due_date x <? date_today clk); simpl; lia.
Qed.

(** X20. The count of open loans follows the lifecycle. A completed issue
    raises it by one and an issue request that does not complete leaves it;
    a completed return lowers it by one; a renewal or a payment never moves
    it. *)
Theorem X20_open_loans_follow_the_lifecycle (c : Call) (request : Request)
    (db : DB) :
  let r := serve c request db in
  match c with
  | IssueCreate _ =>
      Listings.active_issues (store r) =
        if issued r then S (Listings.active_issues db)
        else Listings.active_issues db
  | IssueReturn _ _ =>
      returned r = true ->
      S (Listings.active_issues (store r)) = Listings.active_issues db
  | IssueRenew _ | FinePay _ _ =>
      Listings.active_issues (store r) = Listings.active_issues db
  end.
Proof.
  simpl. unfold Listings.active_issues.
  destruct c; open_views; try done;
    try (rewrite List.filter_app, length_app; simpl; lia);
    try intros _;
    match goal with
    | H : issues db !! _ = Some ?old
      |- context [<[_ := ?new]> (issues db)] =>
        pose proof (filter_length_insert
          (fun i => bool_decide (Issue.return_date i = None)) _ _ old new H)
          as Hcount
    end;
    simpl in Hcount;
    repeat match goal with
           | H : Issue.return_date _ = None |- _ => rewrite H in Hcount
           end;
    simpl in Hcount; lia.
Qed.

Lemma X20_open_loans_follow_the_lifecycle_witness :
  let r := serve (IssueReturn Sample.late 0) (Sample.post 1 Missing Missing)
                 Sample.shelf in
  Listings.active_issues Sample.shelf = 1%nat /\
  S (Listings.active_issues (store r)) = Listings.active_issues Sample.shelf.
Proof.
  split; [reflexivity|].
  apply (X20_open_loans_follow_the_lifecycle (IssueReturn Sample.late 0)
           (Sample.post 1 Missing Missing) Sample.shelf).
  reflexivity.
Defined.

(** ** Payments and the total of pending fines *)

Lemma sum_amount_app (xs ys : list Fine.t) :
  Listings.sum_amount (xs ++ ys)
  = Listings.sum_amount xs + Listings.sum_amount ys.
Proof.
  unfold Listings.sum_amount. induction xs as [|x xs IH]; simpl; [done|].
  rewrite IH. lia.
Qed.

Lemma pending_sum_insert (fs : list Fine.t) (k : nat) (old new : Fine.t) :
  fs !! k = Some old ->
  Listings.sum_amount (List.filter Listings.is_pending (<[k := new]> fs))
  = Listings.sum_amount (List.filter Listings.is_pending fs)
    - (if Listings.is_pending old then Fine.amount old else 0)
    + (if Listings.is_pending new then Fine.amount new else 0).
Proof.
  intros Hold.
  assert (Hlen : (k < length fs)%nat) by (by eapply lookup_lt_Some).
  rewrite insert_take_drop by done.
  rewrite <- (take_drop_middle fs k old Hold) at 3.
  rewrite !List.filter_app, !sum_amount_app. simpl.
  destruct (Listings.is_pending old), (Listings.is_pending new); simpl;
    rewrite ?sum_amount_app; unfold Listings.sum_amount; simpl; lia.
Qed.

(** X21. Only a payment moves the total of pending fines, and only down
    by the fine paid. Issue, return and renew requests leave the dashboard's
    [pending_fines] as it is. A payment posted by a librarian or
    administrator takes the amount of the fine off the total when the fine
    was PENDING, and leaves the total alone when it was already PAID or
    WAIVED. *)
Theorem X21_pending_total_and_payments (c : Call) (request : Request)
    (db : DB) :
  let r := serve c request db in
  match c with
  | FinePay _ fine_id =>
      forall me f,
        request_user db request = Some me ->
        Utils.is_librarian (snd me) = true ->
        method request = "POST" ->
        fines db !! fine_id = Some f ->
        Listings.pending_fines (store r) =
          Listings.pending_fines db
          - (if Listings.is_pending f then Fine.amount f else 0)
  | _ => Listings.pending_fines (store r) = Listings.pending_fines db
  end.
Proof.
  unfold Listings.pending_fines.
  destruct c as [clk|clk issue_id|issue_id|clk fine_id]; cbv zeta;
    cbn [serve]; [open_views; done..|].
  intros me f Hme Hstaff Hpost Hf. unfold Views.fine_pay.
  rewrite (staff_passes _ _ _ _ Hme Hstaff).
  unfold Views.fine_pay_body. rewrite Hf, Hpost. simpl.
  rewrite (pending_sum_insert _ _ f) by done. simpl. lia.
Qed.

Lemma X21_pending_total_and_payments_witness :
  let due : Fine.t := Fine.create 0 50 Fine.PENDING in
  let db := set_fines [due] Sample.ledger in
  let r := serve (FinePay Sample.later 0) (Sample.pay 1 None) db in
  Listings.pending_fines db = 50 /\
  Listings.pending_fines (store r) = 50 - 50.
Proof.
  split; [reflexivity|].
  apply (X21_pending_total_and_payments (FinePay Sample.later 0)
           (Sample.pay 1 None)
           (set_fines [Fine.create 0 50 Fine.PENDING] Sample.ledger)
           (1, Sample.librarian) (Fine.create 0 50 Fine.PENDING));
    reflexivity.
Defined.

(** The two ways a payment request can end: nothing written, or the fine
    rewritten as paid. *)
Lemma fine_pay_cases (clk : Clock) (fine_id : nat) (request : Request)
    (db : DB) :
  let r := Views.fine_pay clk fine_id request db in
  r = Views.responds (Redirect "login") [] db \/
  r = Views.responds (Redirect "dashboard") [(ERROR, NoPagePermission)] db \/
  r = Views.raises Http404 [] db \/
  r = Views.responds (Render "fines/fine_pay.html") [] db \/
  exists me f,
    request_user db request = Some me /\
    Utils.is_librarian (snd me) = true /\
    method request = "POST" /\
    fines db !! fine_id = Some f /\
    r = Views.responds (Redirect "fine_list")
          [(SUCCESS, FinePaid (Fine.amount f))]
          (Utils.log_audit (Some (fst me)) "PAYMENT" "Fine" (Some fine_id)
             (set_fines
                (<[fine_id :=
                     Fine.set_payment_method
                       (default "CASH" (POST_payment_method request))
                       (Fine.set_payment_date (Some (date_today clk))
                          (Fine.set_status Fine.PAID f))]> (fines db)) db)).
Proof.
  simpl. unfold Views.fine_pay, Utils.librarian_required.
  apply through_role; [by left | by right; left |].
  intros me p Hme Hp Hrole. unfold Views.fine_pay_body.
  destruct (fines db !! fine_id) as [f|] eqn:Hf; [|by right; right; left].
  case_bool_decide as Hpost; [|by right; right; right; left].
  right; right; right; right. exists me, f. repeat split; try done.
  unfold Utils.is_librarian, Utils.get_user_role. rewrite Hp.
  by apply bool_decide_eq_true_2.
Qed.

(** X22. Paying twice is paying once. Sending the same payment request a
    second time, on the same day, is answered like the first one and leaves
    every fine exactly as the first request left it; only the audit log
    gets a second entry. *)
Theorem X22_repeated_payment_changes_nothing_more (clk : Clock)
    (fine_id : nat) (request : Request) (db : DB) :
  let first := Views.fine_pay clk fine_id request db in
  let second := Views.fine_pay clk fine_id request (store first) in
  outcome second = outcome first /\
  flashed second = flashed first /\
  fines (store second) = fines (store first) /\
  issues (store second) = issues (store first) /\
  books (store second) = books (store first).
Proof.
  intros first second.
  destruct (fine_pay_cases clk fine_id request db)
    as [H|[H|[H|[H|(me & f & Hme & Hstaff & Hpost & Hf & H)]]]];
    fold first in H.
  1-4: by (subst second; rewrite H; simpl; fold first; rewrite H).
  subst second. rewrite H. simpl.
  assert (Hlen : (fine_id < length (fines db))%nat)
    by (by eapply lookup_lt_Some).
  unfold Views.fine_pay. erewrite staff_passes; [|exact Hme|exact Hstaff].
  unfold Views.fine_pay_body. simpl.
  rewrite list_lookup_insert_eq, Hpost by done. simpl.
  repeat split. by rewrite list_insert_insert_eq.
Qed.

(** ** The quantity field of the book form *)

(** X23. [BookForm.clean_total_quantity] refuses exactly the negative
    quantities. Zero gets through, although the error message reads
    'Quantity must be at least 1', because a zero is falsy in the test; an
    empty field gets through as well. *)
Theorem X23_total_quantity_check (quantity : option Z) :
  (Forms.clean_total_quantity quantity = inl tt <->
   exists q, quantity = Some q /\ q < 0) /\
  (Forms.clean_total_quantity quantity <> inl tt ->
   Forms.clean_total_quantity quantity = inr quantity) /\
  Forms.clean_total_quantity (Some 0) = inr (Some 0).
Proof.
  unfold Forms.clean_total_quantity. split; [|split; [|done]].
  - destruct quantity as [q|].
    + destruct (Z.eqb_spec q 0), (Z.ltb_spec q 1); simpl;
        split; try done; try (intros (q' & [= <-] & Hq); lia).
      intros _. exists q. split; [done|lia].
    + split; [done|]. by intros (q & Hq & _).
  - destruct quantity as [q|]; [|done].
    by destruct (negb (q =? 0) && (q <? 1)).
Qed.

Lemma X23_total_quantity_check_witness :
  Forms.clean_total_quantity (Some (-2)) = inl tt /\
  Forms.clean_total_quantity (Some 0) = inr (Some 0) /\
  Forms.clean_total_quantity None = inr None.
Proof.
  pose proof (X23_total_quantity_check (Some (-2))) as (Hneg & _ & Hzero).
  pose proof (X23_total_quantity_check None) as (_ & Hnone & _).
  split; [apply Hneg; exists (-2); split; reflexivity|].
  split; [exact Hzero|]. apply Hnone. discriminate.
Defined.

(** ** Which dashboard *)

(** X24. The dashboard view sorts users the way [is_librarian] does,
    though it reads the role on its own: a logged-in user gets the
    librarian dashboard exactly when [is_librarian] holds, and the student
    dashboard otherwise, a user without a profile included; a visitor who
    is not logged in is sent to the login page. *)
Theorem X24_dashboard_follows_is_librarian (request : Request) (db : DB) :
  match request_user db request with
  | None => Listings.dashboard_template db request = Redirect "login"
  | Some me =>
      Listings.dashboard_template db request =
        if Utils.is_librarian (snd me)
        then Render "dashboard_librarian.html"
        else Render "dashboard_student.html"
  end.
Proof.
  unfold Listings.dashboard_template, Utils.is_librarian,
    Utils.get_user_role.
  destruct (request_user db request) as [me|]; [|done].
  destruct (User.profile (snd me)) as [p|].
  - apply (f_equal (fun b : bool =>
             if b then Render "dashboard_librarian.html"
             else Render "dashboard_student.html")).
    apply bool_decide_ext. rewrite !elem_of_cons, !elem_of_nil.
    split; intros [H|[H|[]]]; [left|right; left|left|right; left];
      congruence.
  - rewrite bool_decide_eq_false_2; [done|].
    rewrite !elem_of_cons, !elem_of_nil. intros [|[|[]]]; discriminate.
Qed.

Lemma X5_no_view_creates_a_fine_witness :
  let r := serve (IssueReturn Sample.late 0) (Sample.post 1 Missing Missing)
                 (set_fines [Sample.settled] Sample.shelf) in
  length (fines (store r)) = 1%nat /\
  exists f', fines (store r) !! 0%nat = Some f' /\
    Fine.issue f' = Fine.issue Sample.settled /\
    Fine.amount f' = Fine.amount Sample.settled /\
    Fine.payment_reference f' = Fine.payment_reference Sample.settled /\
    Fine.waived_by f' = Fine.waived_by Sample.settled /\
    Fine.waive_reason f' = Fine.waive_reason Sample.settled /\
    (Fine.status f' = Fine.status Sample.settled \/
     Fine.status f' = Fine.PAID).
Proof.
  pose proof (X5_no_view_creates_a_fine (IssueReturn Sample.late 0)
                (Sample.post 1 Missing Missing)
                (set_fines [Sample.settled] Sample.shelf)) as [Hlen Hrow].
  split; [exact Hlen|]. exact (Hrow 0%nat Sample.settled eq_refl).
Defined.

(** ** Renewing without being staff, and requests that do not succeed *)

(** X25. Only the role decides a renewal. A renew request from a
    logged-in user whose role is neither ADMIN nor LIBRARIAN is answered
    'You do not have permission to renew this book.' and changes nothing,
    whether or not the user is the borrower of the loan, and whatever the
    state of the loan; the borrower is sent back to 'my_books' and anyone
    else to 'issue_list'. *)
Theorem X25_renewal_is_refused_by_role_alone (issue_id : nat)
    (request : Request) (db : DB) (me : Z * User.t) (p : UserProfile.t)
    (i : Issue.t) :
  request_user db request = Some me ->
  User.profile (snd me) = Some p ->
  UserProfile.role p ∉ ["ADMIN"; "LIBRARIAN"] ->
  issues db !! issue_id = Some i ->
  Views.issue_renew issue_id request db =
    Views.responds
      (Redirect (if Issue.user i =? fst me then "my_books" else "issue_list"))
      [(ERROR, NoRenewPermission)] db.
Proof.
  intros Hme Hp Hrole Hi.
  unfold Views.issue_renew, Utils.login_required. rewrite Hme.
  unfold Views.issue_renew_body. rewrite Hi, renew_refused_by_role, Hp.
  by rewrite bool_decide_eq_false_2.
Qed.

Lemma X25_renewal_is_refused_by_role_alone_witness :
  Views.issue_renew 0 (Sample.post 2 Missing Missing) Sample.shelf =
    Views.responds (Redirect "my_books") [(ERROR, NoRenewPermission)]
                   Sample.shelf.
Proof.
  apply (X25_renewal_is_refused_by_role_alone 0
           (Sample.post 2 Missing Missing) Sample.shelf (2, Sample.student)
           {| UserProfile.role := "STUDENT" |} Sample.loan);
    try reflexivity.
  rewrite !elem_of_cons, !elem_of_nil. intros [|[|[]]]; discriminate.
Defined.

(** X26. A request that does not report success has written nothing. If
    an issue request does not end with 'Book issued successfully', a renew
    request not with 'Book renewed!', or a payment not with 'Fine ... paid
    successfully!', whether it was refused, was ill-formed or raised an
    exception, then the database is exactly as before. The same holds for a
    return request that does not end with 'Book returned', provided the
    book of the loan exists and its [available_quantity] lies in the range
    of an integer column and below its top. *)
Theorem X26_no_success_no_write (c : Call) (request : Request) (db : DB) :
  let r := serve c request db in
  match c with
  | IssueCreate _ => issued r = false -> store r = db
  | IssueRenew _ => renewed r = false -> store r = db
  | FinePay _ _ =>
      (forall amount, flashed r <> [(SUCCESS, FinePaid amount)]) ->
      store r = db
  | IssueReturn _ issue_id =>
      (forall i, issues db !! issue_id = Some i ->
         exists bk,
           books db !! Issue.book i = Some bk /\
           IntegerField_min <= Book.available_quantity bk
             < IntegerField_max) ->
      returned r = false -> store r = db
  end.
Proof.
  simpl. destruct c; open_views; try done;
    first
      [ intros Hbook _; destruct (Hbook _ eq_refl) as (? & ? & _);
        congruence
      | intros Hnot; by destruct (Hnot _ eq_refl) ].
Qed.

Lemma X26_no_success_no_write_witness :
  let request := Sample.post 1 Missing Missing in
  store (serve (IssueReturn Sample.late 0) request Sample.ledger)
  = Sample.ledger.
Proof.
  apply (X26_no_success_no_write (IssueReturn Sample.late 0)
           (Sample.post 1 Missing Missing) Sample.ledger).
  - intros i Hi. injection Hi as <-. exists Sample.novel.
    split; [reflexivity|].
    vm_compute; split; [discriminate | reflexivity].
  - reflexivity.
Defined.
